(** * DevBrief generator: schema validation, brief parsing and persistence

    A shallow embedding of the TypeScript sources

      - [src/validateDataset.ts]  the batch dataset validator,
      - [src/chat.ts]             the generation pipeline (LLM call, parsing,
                                  datastore insertion),
      - the streaming entry point (prompt builders and a streamed LLM call),

    together with the properties of the specification that concern them.

    Values that come out of [JSON.parse] are modelled by the inductive type
    [json]; JavaScript objects are finite maps from property names to values
    ([gmap string json]), so two objects with the same properties are equal.
    Code that throws returns an [Outcome]; code that talks to the outside
    world (console, datastore, LLM API) takes the answers of the outside
    world as arguments and returns the list of calls it made. *)

From stdpp Require Import base option list gmap strings pretty.
From Stdlib Require Import ZArith.

Open Scope Z_scope.

(** ** Parsed JSON values *)

(** The numeric payload is never inspected by the program (no schema rule and
    no branch looks at it), so numbers are represented by integers. *)
#[warnings="-register-all"]
Inductive json : Type :=
  | JNull
  | JBool (b : bool)
  | JNum (n : Z)
  | JStr (s : string)
  | JArr (l : list json)
  | JObj (m : gmap string json).

(** A JavaScript value that may be [undefined]: [None] is [undefined]. *)
Abbreviation jsvalue := (option json).

(** ** Exceptions *)

Inductive Outcome (E A : Type) : Type :=
  | Ok (a : A)
  | Throw (e : E).
Arguments Ok {E A} a.
Arguments Throw {E A} e.

#[export] Instance Outcome_ret {E} : MRet (Outcome E) := λ _ a, Ok a.
#[export] Instance Outcome_bind {E} : MBind (Outcome E) := λ _ _ f x,
  match x with
  | Ok a => f a
  | Throw e => Throw e
  end.

(** ** The validation library

    The subset of zod that [briefSchema] is built from: [z.string()],
    [z.enum([...])], [z.array(elem).min(n)] and [z.object({...})] in its
    default mode, where keys that the shape does not list are removed from
    the parsed value. *)
Module Zod.

Inductive PathSeg : Type :=
  | PKey (k : string)
  | PIdx (i : nat).

Inductive ParsedType : Type :=
  | TUndefined | TNull | TBoolean | TNumber | TString | TArray | TObject.

Definition getParsedType (v : jsvalue) : ParsedType :=
  match v with
  | None => TUndefined
  | Some JNull => TNull
  | Some (JBool _) => TBoolean
  | Some (JNum _) => TNumber
  | Some (JStr _) => TString
  | Some (JArr _) => TArray
  | Some (JObj _) => TObject
  end.

Inductive Expected : Type :=
  | ExpType (t : ParsedType)
  | ExpOneOf (values : list string).

Inductive IssueCode : Type :=
  | invalid_type (expected : Expected) (received : ParsedType)
  | invalid_enum_value (options : list string) (received : string)
  | too_small (minimum : nat).

Record ZodIssue : Type := mkIssue {
  code : IssueCode;
  path : list PathSeg;
}.

(** [ZodError]: the structured error of a failed parse. *)
Record ZodError : Type := mkZodError { issues : list ZodIssue }.

#[warnings="-register-all"]
Inductive Schema : Type :=
  | ZString
  | ZEnum (values : list string)
  | ZArray (elem : Schema) (min : nat)
  | ZObject (shape : list (string * Schema)).

(** The result of parsing one node: the parsed value, or the issues found
    at and below the node. *)
Definition ParseReturn : Type := json + list ZodIssue.

Definition issues_of (r : ParseReturn) : list ZodIssue :=
  match r with
  | inl _ => []
  | inr iss => iss
  end.

Definition value_of (r : ParseReturn) : option json :=
  match r with
  | inl v => Some v
  | inr _ => None
  end.

(** An array collects the issues of the array itself (its length) and of
    all its elements; it is valid when there are none. *)
Definition merge_array (own : list ZodIssue) (rs : list ParseReturn) : ParseReturn :=
  match own ++ concat (issues_of <$> rs) with
  | [] => inl (JArr (omap value_of rs))
  | iss => inr iss
  end.

(** An object collects the issues of all the keys of its shape, in the
    order of the shape; when there are none the parsed value is a new
    object that holds the parsed value of each key of the shape and nothing
    else. *)
Definition merge_object (rs : list (string * ParseReturn)) : ParseReturn :=
  match concat ((λ kr, issues_of kr.2) <$> rs) with
  | [] => inl (JObj (list_to_map (omap (λ kr, (kr.1,.) <$> value_of kr.2) rs)))
  | iss => inr iss
  end.

Fixpoint parse (s : Schema) (p : list PathSeg) (input : jsvalue) {struct s} : ParseReturn :=
  match s with
  | ZString =>
      match input with
      | Some (JStr x) => inl (JStr x)
      | _ => inr [mkIssue (invalid_type (ExpType TString) (getParsedType input)) p]
      end
  | ZEnum values =>
      match input with
      | Some (JStr x) =>
          if bool_decide (x ∈ values) then inl (JStr x)
          else inr [mkIssue (invalid_enum_value values x) p]
      | _ => inr [mkIssue (invalid_type (ExpOneOf values) (getParsedType input)) p]
      end
  | ZArray elem min =>
      match input with
      | Some (JArr l) =>
          merge_array
            (if bool_decide (length l < min)%nat then [mkIssue (too_small min) p] else [])
            (imap (λ i x, parse elem (p ++ [PIdx i]) (Some x)) l)
      | _ => inr [mkIssue (invalid_type (ExpType TArray) (getParsedType input)) p]
      end
  | ZObject shape =>
      match input with
      | Some (JObj m) =>
          merge_object
            ((fix fields (sh : list (string * Schema)) : list (string * ParseReturn) :=
                match sh with
                | [] => []
                | (k, fs) :: rest => (k, parse fs (p ++ [PKey k]) (m !! k)) :: fields rest
                end) shape)
      | _ => inr [mkIssue (invalid_type (ExpType TObject) (getParsedType input)) p]
      end
  end.

(** The fields of an object, as [parse] visits them. *)
Definition parse_fields (p : list PathSeg) (m : gmap string json)
    (shape : list (string * Schema)) : list (string * ParseReturn) :=
  (λ ks, (ks.1, parse ks.2 (p ++ [PKey ks.1]) (m !! ks.1))) <$> shape.

Inductive SafeParseReturn : Type :=
  | Success (data : json)
  | Failure (error : ZodError).

Definition safeParse (s : Schema) (v : json) : SafeParseReturn :=
  match parse s [] (Some v) with
  | inl data => Success data
  | inr iss => Failure (mkZodError iss)
  end.

Definition success (r : SafeParseReturn) : bool :=
  match r with
  | Success _ => true
  | Failure _ => false
  end.

End Zod.

(** ** [src/validateDataset.ts]: the brief schema *)

Definition briefSchema : Zod.Schema :=
  Zod.ZObject [
    ("level", Zod.ZEnum ["junior"; "intermediate"; "senior"]);
    ("domain", Zod.ZString);
    ("tech_focus", Zod.ZEnum ["frontend"; "backend"; "fullstack"]);
    ("stack", Zod.ZArray Zod.ZString 1);
    ("duration", Zod.ZString);
    ("brief", Zod.ZString);
    ("business_problem", Zod.ZString);
    ("target_users", Zod.ZString);
    ("goals", Zod.ZArray Zod.ZString 1);
    ("deliverables", Zod.ZArray Zod.ZString 1);
    ("assessment_criteria", Zod.ZString);
    ("company_size", Zod.ZEnum ["Startup"; "SME"; "Large Enterprise"]);
    ("complexity", Zod.ZEnum ["low"; "medium"; "high"])
  ].

(** The example brief of the system prompt. *)
Definition example_brief : gmap string json :=
  list_to_map [
    ("level", JStr "junior");
    ("domain", JStr "FinTech");
    ("tech_focus", JStr "frontend");
    ("stack", JArr [JStr "React"; JStr "TypeScript"; JStr "TailwindCSS"]);
    ("duration", JStr "2 weeks");
    ("brief", JStr "Build a responsive dashboard to visualize user transactions and spending patterns.");
    ("business_problem", JStr "FinTech companies need intuitive dashboards to help users understand their finances and make informed decisions.");
    ("target_users", JStr "End users of a personal finance mobile app");
    ("goals", JArr [JStr "Implement a transaction list with category filters";
                    JStr "Add monthly spending summaries and charts";
                    JStr "Optimize layout for mobile and desktop"]);
    ("deliverables", JArr [JStr "Fully functional responsive web app";
                           JStr "Mock API or Supabase integration";
                           JStr "Documentation on architecture and design choices"]);
    ("assessment_criteria", JStr "Code clarity, UX design quality, and data visualization performance");
    ("company_size", JStr "Startup");
    ("complexity", JStr "medium")
  ].

(** The shape of [briefSchema]. *)
Definition brief_shape : list (string * Zod.Schema) :=
  match briefSchema with
  | Zod.ZObject shape => shape
  | _ => []
  end.

(** A conforming brief that also carries user stories. *)
Definition brief_with_user_stories : gmap string json :=
  <["user_stories" := JArr [JObj (list_to_map [
      ("title", JStr "Filter transactions");
      ("description", JStr "As a user I filter my transactions by category");
      ("acceptance_criteria", JArr [JStr "Selecting a category narrows the list"]);
      ("priority", JStr "high");
      ("complexity", JStr "low")])]]> example_brief.

(** The user stories of [brief_with_user_stories]. *)
Definition example_user_stories : list json :=
  match brief_with_user_stories !! "user_stories" with
  | Some (JArr l) => l
  | _ => []
  end.

(** The properties that [briefSchema] requires, and the enum and array
    fields among them. *)
Definition required_fields : list string :=
  ["level"; "domain"; "tech_focus"; "stack"; "duration"; "brief";
   "business_problem"; "target_users"; "goals"; "deliverables";
   "assessment_criteria"; "company_size"; "complexity"].

Definition enum_fields : list (string * list string) :=
  [("level", ["junior"; "intermediate"; "senior"]);
   ("tech_focus", ["frontend"; "backend"; "fullstack"]);
   ("company_size", ["Startup"; "SME"; "Large Enterprise"]);
   ("complexity", ["low"; "medium"; "high"])].

Definition array_fields : list string := ["stack"; "goals"; "deliverables"].

(** *** Conformance to the brief schema, in the words of the specification

    All required fields present with correct types, enum values in their
    closed sets, [stack], [goals] and [deliverables] non-empty. *)
Definition is_string (v : jsvalue) : bool :=
  match v with
  | Some (JStr _) => true
  | _ => false
  end.

Definition in_enum (values : list string) (v : jsvalue) : bool :=
  match v with
  | Some (JStr x) => bool_decide (x ∈ values)
  | _ => false
  end.

Definition is_nonempty_string_array (v : jsvalue) : bool :=
  match v with
  | Some (JArr (x :: l)) => forallb (λ y, is_string (Some y)) (x :: l)
  | _ => false
  end.

Definition well_formed_brief (m : gmap string json) : bool :=
  in_enum ["junior"; "intermediate"; "senior"] (m !! "level")
  && is_string (m !! "domain")
  && in_enum ["frontend"; "backend"; "fullstack"] (m !! "tech_focus")
  && is_nonempty_string_array (m !! "stack")
  && is_string (m !! "duration")
  && is_string (m !! "brief")
  && is_string (m !! "business_problem")
  && is_string (m !! "target_users")
  && is_nonempty_string_array (m !! "goals")
  && is_nonempty_string_array (m !! "deliverables")
  && is_string (m !! "assessment_criteria")
  && in_enum ["Startup"; "SME"; "Large Enterprise"] (m !! "company_size")
  && in_enum ["low"; "medium"; "high"] (m !! "complexity").

(** The input object without the keys that the schema does not list. *)
Definition strip_unknown (m : gmap string json) : gmap string json :=
  filter (λ kv, kv.1 ∈ required_fields) m.

(** The ways in which a brief object breaks the schema at field [f]. *)
Inductive field_violation (m : gmap string json) (f : string) : Prop :=
  | missing_field :
      f ∈ required_fields → m !! f = None → field_violation m f
  | enum_outside_set (values : list string) (v : json) :
      (f, values) ∈ enum_fields → m !! f = Some v →
      in_enum values (Some v) = false → field_violation m f
  | empty_array :
      f ∈ array_fields → m !! f = Some (JArr []) → field_violation m f.

(** The structured error has an issue located at property [f]. *)
Definition names_field (e : Zod.ZodError) (f : string) : Prop :=
  ∃ i, i ∈ Zod.issues e ∧ Zod.path i = [Zod.PKey f].

(** ** Exceptions, console and external calls *)

Inductive Exception : Type :=
  | Error (message : string)
  | InvalidJsonFormat (error : Zod.ZodError)
      (* new Error(`Invalid JSON format: ${result.error.message}`) *)
  | TypeError (message : string)
  | SyntaxError (message : string)
  | Rejected (reason : string)       (* a rejected promise of an external call *)
  | Exit (code : Z).                 (* process.exit(code): nothing runs after it *)

Inductive ConsoleArg : Type :=
  | AStr (s : string)
  | AValue (v : jsvalue)
  | AZodFormat (e : Zod.ZodError)    (* result.error.format() *)
  | AErr (e : Exception).

(** JavaScript truthiness of an optional string: [undefined] and the empty
    string are falsy. *)
Definition truthy (s : option string) : bool :=
  match s with
  | None | Some "" => false
  | Some _ => true
  end.

Definition nl : string :=
  String (Ascii.Ascii false true false true false false false false) "".

Definition dquote : string :=
  String (Ascii.Ascii false true false false false true false false) "".

(** The row of table [briefs] and the rows of table [brief_user_stories]. *)
Record BriefRow : Type := mkBriefRow {
  row_level : jsvalue;
  row_domain : jsvalue;
  row_tech_focus : jsvalue;
  row_stack : jsvalue;
  row_duration : jsvalue;
  row_brief : jsvalue;
  row_business_problem : jsvalue;
  row_target_users : jsvalue;
  row_goals : jsvalue;
  row_deliverables : jsvalue;
  row_assessment_criteria : jsvalue;
  row_company_size : jsvalue;
  row_complexity : jsvalue;
  row_embedding : list Z;
}.

Record UserStoryRow : Type := mkUserStoryRow {
  brief_id : jsvalue;
  story_order : nat;
  title : jsvalue;
  description : jsvalue;
  acceptance_criteria : jsvalue;
  priority : jsvalue;
  story_complexity : jsvalue;
}.

Record Message : Type := mkMessage { role : string; content : string }.

(** The payloads of [client.responses.create] and of
    [client.chat.completions.create]; the temperature 0.3 is the fraction
    3/10. *)
Module Responses.
Record Payload : Type := mkPayload {
  model : string;
  temperature : Z * Z;
  input : list Message;
}.
End Responses.

Module ChatCompletions.
Record Payload : Type := mkPayload {
  model : string;
  stream : bool;
  messages : list Message;
  temperature : Z * Z;
}.
End ChatCompletions.

Inductive Effect : Type :=
  | console_log (args : list ConsoleArg)
  | console_error (args : list ConsoleArg)
  | stdout_write (s : string)
  | schema_safeParse (input : json)
  | supabase_insert_brief (row : BriefRow)
  | supabase_insert_user_stories (rows : list UserStoryRow)
  | openai_responses_create (payload : Responses.Payload)
  | openai_chat_completions_create (payload : ChatCompletions.Payload).

Definition is_validation (e : Effect) : bool :=
  match e with
  | schema_safeParse _ => true
  | _ => false
  end.

Definition is_storage (e : Effect) : bool :=
  match e with
  | supabase_insert_brief _ | supabase_insert_user_stories _ => true
  | _ => false
  end.

(** An effect that is neither a validation nor a datastore call. *)
Definition quiet (e : Effect) : Prop := is_validation e = false ∧ is_storage e = false.

(** [Array.prototype.forEach] with the state that the callback updates. *)
Fixpoint forEach {St A : Type} (f : St → nat → A → St) (index : nat) (l : list A) (st : St) : St :=
  match l with
  | [] => st
  | x :: l' => forEach f (S index) l' (f st index x)
  end.

(** ** [src/validateDataset.ts]: the batch validator *)
Module ValidateDataset.

Definition DATASET_PATH : string := "src/briefs_dataset.json".

Record LoopState : Type := mkLoopState {
  validCount : nat;
  errorCount : nat;
  out : list Effect;
}.

(** The callback of [briefs.forEach]. *)
Definition check (st : LoopState) (index : nat) (brief : json) : LoopState :=
  match Zod.safeParse briefSchema brief with
  | Zod.Success _ =>
      {| validCount := S (validCount st);
         errorCount := errorCount st;
         out := out st ++ [schema_safeParse brief] |}
  | Zod.Failure error =>
      {| validCount := validCount st;
         errorCount := S (errorCount st);
         out := out st ++
           [schema_safeParse brief;
            console_error [AStr ("❌ Brief #" +:+ pretty (index + 1)%nat +:+ " failed validation:")];
            console_error [AZodFormat error];
            console_log [AStr ""]] |}
  end.

Definition validate (briefs : list json) : LoopState :=
  forEach check 0%nat briefs
    {| validCount := 0; errorCount := 0;
       out := [console_log [AStr ("🧩 Validating " +:+ pretty (length briefs) +:+ " briefs..." +:+ nl)]] |}.

Section Run.
(** [fs.readFileSync] and [JSON.parse]. *)
Variable readFileSync : string → Outcome Exception string.
Variable JSON_parse : string → Outcome Exception json.

(** The [try] block. *)
Definition body : list Effect * Outcome Exception () :=
  match readFileSync DATASET_PATH ≫= JSON_parse with
  | Throw e => ([], Throw e)
  | Ok (JArr briefs) =>
      let st := validate briefs in
      let report := out st ++ [console_log [AStr ("✅ " +:+ pretty (validCount st) +:+ " briefs valid")]] in
      if bool_decide (0 < errorCount st)%nat then
        (report ++ [console_log [AStr ("⚠️  " +:+ pretty (errorCount st) +:+ " briefs invalid")]],
         Throw (Exit 1))
      else
        (report ++ [console_log [AStr "🎉 All briefs passed validation!"]], Ok ())
  | Ok _ => ([], Throw (Error "Dataset must be an array of briefs"))
  end.

(** The whole script: its console output and its exit code. *)
Definition run : list Effect * Z :=
  match body with
  | (o, Ok _) => (o, 0)
  | (o, Throw (Exit c)) => (o, c)
  | (o, Throw err) =>
      (o ++ [console_error [AStr "❌ Error reading or parsing dataset:"; AErr err]], 1)
  end.
End Run.

(** The failure reports of a console trace: the formatted errors. *)
Definition reported (o : list Effect) : list Zod.ZodError :=
  omap (λ e, match e with console_error [AZodFormat err] => Some err | _ => None end) o.

(** The values handed to the schema. *)
Definition validated (o : list Effect) : list json :=
  omap (λ e, match e with schema_safeParse v => Some v | _ => None end) o.

Definition fails (brief : json) : bool := negb (Zod.success (Zod.safeParse briefSchema brief)).

(** The structured errors of the briefs that fail the schema, in order. *)
Definition errors_of (briefs : list json) : list Zod.ZodError :=
  omap (λ b, match Zod.safeParse briefSchema b with
             | Zod.Failure e => Some e
             | Zod.Success _ => None
             end) briefs.

End ValidateDataset.

(** ** Programs that talk to the outside world

    A computation takes the state of the outside world (datastore, remote
    API) and returns the new state, the calls and console output it
    produced, and its result or the exception it threw. *)
Definition M (W A : Type) : Type := W → W * list Effect * Outcome Exception A.

#[export] Instance M_ret {W} : MRet (M W) := λ _ a w, (w, [], Ok a).

#[export] Instance M_bind {W} : MBind (M W) := λ _ _ f x w,
  match x w with
  | (w1, t1, Ok a) => let '(w2, t2, r) := f a w1 in (w2, t1 ++ t2, r)
  | (w1, t1, Throw e) => (w1, t1, Throw e)
  end.

Definition emit {W} (e : Effect) : M W () := λ w, (w, [e], Ok ()).

Definition throw {W A} (e : Exception) : M W A := λ w, (w, [], Throw e).

Definition lift {W A} (x : Outcome Exception A) : M W A := λ w, (w, [], x).

(** An awaited call of an external service: the call is recorded, the
    service changes state and answers (or rejects). *)
Definition await {W A} (e : Effect) (f : W → W * Outcome Exception A) : M W A :=
  λ w, let '(w', r) := f w in (w', [e], r).

(** [Array.prototype.map] with a callback that may throw: the elements are
    visited in index order and the first exception ends the traversal. *)
Fixpoint array_map {W A B : Type} (f : A → nat → M W B) (index : nat) (l : list A) : M W (list B) :=
  match l with
  | [] => mret []
  | x :: l' =>
      y ← f x index;
      ys ← array_map f (S index) l';
      mret (y :: ys)
  end.

(** Reading property [k] of a parsed JSON value, for a name [k] that no
    built-in prototype defines (all the names read by the program are such):
    [null] throws, an object answers with its own property, anything else with
    [undefined]. *)
Definition get_prop (v : json) (k : string) : Outcome Exception jsvalue :=
  match v with
  | JNull => Throw (TypeError ("Cannot read properties of null (reading '" +:+ k +:+ "')"))
  | JObj m => Ok (m !! k)
  | _ => Ok None
  end.

(** ** [src/chat.ts]: the generation pipeline *)
Module Chat.

Record Response : Type := mkResponse { output_text : option string }.

Record PostgrestError : Type := mkPostgrestError { message : string }.

(** The answer [{ data, error }] of an insert followed by
    [.select().single()]. *)
Record SingleResponse : Type := mkSingleResponse {
  data : json;
  error : option PostgrestError;
}.

Record InsertionSummary : Type := mkInsertionSummary {
  brief : json;
  userStoriesInserted : nat;
}.

Section Pipeline.
Context {W OpenAI SupabaseClient : Type}.

(** [process.env]. *)
Variable env : gmap string string.

(** Imported from [./openaiClient.js], [./supabaseClient.js] and
    [./schema/brief.js]. *)
Variable createOpenAIClient : string → OpenAI.
Variable createSupabaseClient : string → string → SupabaseClient.
Variable briefSchema : Zod.Schema.

(** [JSON.parse], and the methods of the two clients that the pipeline
    calls: [client.responses.create(payload)],
    [client.from('briefs').insert(row).select().single()] and
    [client.from('brief_user_stories').insert(rows)]. *)
Variable JSON_parse : string → Outcome Exception json.
Variable responses_create :
  OpenAI → Responses.Payload → W → W * Outcome Exception Response.
Variable briefs_insert_select_single :
  SupabaseClient → BriefRow → W → W * Outcome Exception SingleResponse.
Variable brief_user_stories_insert :
  SupabaseClient → list UserStoryRow → W → W * Outcome Exception (option PostgrestError).

Definition getOpenAIClient : M W OpenAI :=
  let apiKey := env !! "OPENAI_API_KEY" in
  if negb (truthy apiKey) then
    throw (Error "Missing OPENAI_API_KEY. Set it in your environment or .env file.")
  else mret (createOpenAIClient (default "" apiKey)).

Definition getSupabaseClient : Outcome Exception SupabaseClient :=
  let supabaseProjectUrl := env !! "SUPABASE_PROJECT_URL" in
  let supabaseAnonKey := env !! "SUPABASE_ANON_KEY" in
  if negb (truthy supabaseProjectUrl) || negb (truthy supabaseAnonKey) then
    Throw (Error "Missing SUPABASE_PROJECT_URL or SUPABASE_ANON_KEY. Set them in your environment or .env file.")
  else Ok (createSupabaseClient (default "" supabaseProjectUrl) (default "" supabaseAnonKey)).

Definition getResponseFromOpenAI (client : OpenAI)
    (userPrompt systemPrompt targetModel : string) : M W json :=
  let responsePayload :=
    {| Responses.model := targetModel;
       Responses.temperature := (3, 10);
       Responses.input :=
         [ mkMessage "system" systemPrompt; mkMessage "user" userPrompt ] |} in
  response ← await (openai_responses_create responsePayload)
                   (responses_create client responsePayload);
  let rawJson := output_text response in
  if negb (truthy rawJson) then
    throw (Error "No content received from OpenAI response.")
  else lift (JSON_parse (default "" rawJson)).

Definition parseSingleBrief (j : json) : M W json :=
  _ ← emit (schema_safeParse j);
  match Zod.safeParse briefSchema j with
  | Zod.Failure error => throw (InvalidJsonFormat error)
  | Zod.Success data => mret data
  end.

Definition parseBriefs (j : json) : M W (list json) :=
  match j with
  | JArr l => array_map (λ x _, parseSingleBrief x) 0%nat l
  | _ => b ← parseSingleBrief j; mret [b]
  end.

(** The callback of [brief.user_stories.map]. *)
Definition userStoryRow (briefId : jsvalue) (story : json) (index : nat) : M W UserStoryRow :=
  title ← lift (get_prop story "title");
  description ← lift (get_prop story "description");
  acceptance_criteria ← lift (get_prop story "acceptance_criteria");
  priority ← lift (get_prop story "priority");
  complexity ← lift (get_prop story "complexity");
  mret {| brief_id := briefId;
          story_order := index + 1;
          title := title;
          description := description;
          acceptance_criteria := acceptance_criteria;
          priority := priority;
          story_complexity := complexity |}.

(** [brief.user_stories.map(callback)]: only an array has [map]. *)
Definition user_stories_map (user_stories : jsvalue)
    (callback : json → nat → M W UserStoryRow) : M W (list UserStoryRow) :=
  match user_stories with
  | Some (JArr l) => array_map callback 0%nat l
  | None => throw (TypeError "Cannot read properties of undefined (reading 'map')")
  | Some JNull => throw (TypeError "Cannot read properties of null (reading 'map')")
  | Some _ => throw (TypeError "brief.user_stories.map is not a function")
  end.

Definition insertBriefInDB (supabaseClient : SupabaseClient) (brief : json)
    (embedding : list Z) : M W InsertionSummary :=
  level ← lift (get_prop brief "level");
  domain ← lift (get_prop brief "domain");
  tech_focus ← lift (get_prop brief "tech_focus");
  stack ← lift (get_prop brief "stack");
  duration ← lift (get_prop brief "duration");
  brief_text ← lift (get_prop brief "brief");
  business_problem ← lift (get_prop brief "business_problem");
  target_users ← lift (get_prop brief "target_users");
  goals ← lift (get_prop brief "goals");
  deliverables ← lift (get_prop brief "deliverables");
  assessment_criteria ← lift (get_prop brief "assessment_criteria");
  company_size ← lift (get_prop brief "company_size");
  complexity ← lift (get_prop brief "complexity");
  let briefRow :=
    mkBriefRow level domain tech_focus stack duration brief_text business_problem
      target_users goals deliverables assessment_criteria company_size complexity
      embedding in
  r ← await (supabase_insert_brief briefRow)
            (briefs_insert_select_single supabaseClient briefRow);
  match error r with
  | Some e => throw (Error ("Error inserting brief into database: " +:+ message e))
  | None =>
      briefId ← lift (get_prop (data r) "id");
      user_stories ← lift (get_prop brief "user_stories");
      userStoryRows ← user_stories_map user_stories (userStoryRow briefId);
      userStoriesError ← await (supabase_insert_user_stories userStoryRows)
                               (brief_user_stories_insert supabaseClient userStoryRows);
      match userStoriesError with
      | Some e =>
          throw (Error ("Error inserting brief user stories into database: " +:+ message e))
      | None =>
          _ ← emit (console_log [AStr "Brief inserted into database with ID:"; AValue briefId]);
          mret {| brief := data r; userStoriesInserted := length userStoryRows |}
      end
  end.

End Pipeline.

End Chat.

(** ** The streaming entry point *)
Module Stream.

Inductive Level : Type := junior | intermediate | senior.
Inductive TechFocus : Type := frontend | backend | fullstack.

Definition level_string (l : Level) : string :=
  match l with
  | junior => "junior"
  | intermediate => "intermediate"
  | senior => "senior"
  end.

Definition tech_focus_string (t : TechFocus) : string :=
  match t with
  | frontend => "frontend"
  | backend => "backend"
  | fullstack => "fullstack"
  end.

(** The argument of [buildUserPrompt]; [count] is optional. *)
Record GenerationRequest : Type := mkGenerationRequest {
  level : Level;
  domain : string;
  tech_focus : TechFocus;
  stack : list string;
  duration : string;
  count : option Z;
}.

Definition buildSystemPrompt : string :=
  String.concat nl [
  "You are “AegisBrief”, a senior Technical Product Owner and Pedagogical Architect specialized in generating realistic technical briefs for developers. ";
  "Your role is to create JSON-structured briefs that describe real-world software projects faced by companies in various business domains.";
  "";
  "Each brief must:";
  "- Represent a real and meaningful business use case,";
  "- Be tailored to the developer's level ('junior', 'intermediate', or 'senior'),";
  "- Respect the given stack and tech focus (frontend, backend, or fullstack),";
  "- Have achievable and measurable goals within the given duration,";
  "- Follow the output schema precisely (valid JSON only).";
  "";
  "You combine pedagogical expertise with realistic business insight.";
  "Your briefs are concise, technically sound, and contextually relevant to the target industry.";
  "";
  "The JSON schema is:";
  "";
  "{";
  "  " +:+ dquote +:+ "level" +:+ dquote +:+ ": " +:+ dquote +:+ "junior" +:+ dquote +:+ ",";
  "  " +:+ dquote +:+ "domain" +:+ dquote +:+ ": " +:+ dquote +:+ "FinTech" +:+ dquote +:+ ",";
  "  " +:+ dquote +:+ "tech_focus" +:+ dquote +:+ ": " +:+ dquote +:+ "frontend" +:+ dquote +:+ ",";
  "  " +:+ dquote +:+ "stack" +:+ dquote +:+ ": [" +:+ dquote +:+ "React" +:+ dquote +:+ ", " +:+ dquote +:+ "TypeScript" +:+ dquote +:+ ", " +:+ dquote +:+ "TailwindCSS" +:+ dquote +:+ "],";
  "  " +:+ dquote +:+ "duration" +:+ dquote +:+ ": " +:+ dquote +:+ "2 weeks" +:+ dquote +:+ ",";
  "  " +:+ dquote +:+ "brief" +:+ dquote +:+ ": " +:+ dquote +:+ "Build a responsive dashboard to visualize user transactions and spending patterns." +:+ dquote +:+ ",";
  "  " +:+ dquote +:+ "business_problem" +:+ dquote +:+ ": " +:+ dquote +:+ "FinTech companies need intuitive dashboards to help users understand their finances and make informed decisions." +:+ dquote +:+ ",";
  "  " +:+ dquote +:+ "target_users" +:+ dquote +:+ ": " +:+ dquote +:+ "End users of a personal finance mobile app" +:+ dquote +:+ ",";
  "  " +:+ dquote +:+ "goals" +:+ dquote +:+ ": [";
  "    " +:+ dquote +:+ "Implement a transaction list with category filters" +:+ dquote +:+ ",";
  "    " +:+ dquote +:+ "Add monthly spending summaries and charts" +:+ dquote +:+ ",";
  "    " +:+ dquote +:+ "Optimize layout for mobile and desktop" +:+ dquote;
  "  ],";
  "  " +:+ dquote +:+ "deliverables" +:+ dquote +:+ ": [";
  "    " +:+ dquote +:+ "Fully functional responsive web app" +:+ dquote +:+ ",";
  "    " +:+ dquote +:+ "Mock API or Supabase integration" +:+ dquote +:+ ",";
  "    " +:+ dquote +:+ "Documentation on architecture and design choices" +:+ dquote;
  "  ],";
  "  " +:+ dquote +:+ "assessment_criteria" +:+ dquote +:+ ": " +:+ dquote +:+ "Code clarity, UX design quality, and data visualization performance" +:+ dquote +:+ ",";
  "  " +:+ dquote +:+ "company_size" +:+ dquote +:+ ": " +:+ dquote +:+ "Startup" +:+ dquote +:+ ",";
  "  " +:+ dquote +:+ "complexity" +:+ dquote +:+ ": " +:+ dquote +:+ "medium" +:+ dquote;
  "}";
  "";
  "⚙️ **Generation Rules:**";
  "- Output must be valid JSON, no explanations or comments.";
  "- Always use English.";
  "- Adapt the realism and scope of the brief to the level and duration.";
  "- Vary the business context and problem between generations.";
  "- If multiple briefs are requested, output an array of JSON objects.";
  ""
  ].

(** [JSON.stringify] of a string and of an array of strings. *)
Definition hex_digit (n : N) : string :=
  match n with
  | 0%N => "0" | 1%N => "1" | 2%N => "2" | 3%N => "3"
  | 4%N => "4" | 5%N => "5" | 6%N => "6" | 7%N => "7"
  | 8%N => "8" | 9%N => "9" | 10%N => "a" | 11%N => "b"
  | 12%N => "c" | 13%N => "d" | 14%N => "e" | _ => "f"
  end.

Definition backslash : string :=
  String (Ascii.Ascii false false true true true false true false) "".

Definition quote_char (c : Ascii.ascii) : string :=
  let n := Ascii.N_of_ascii c in
  if (n =? 34)%N then backslash +:+ dquote
  else if (n =? 92)%N then backslash +:+ backslash
  else if (n =? 8)%N then backslash +:+ "b"
  else if (n =? 9)%N then backslash +:+ "t"
  else if (n =? 10)%N then backslash +:+ "n"
  else if (n =? 12)%N then backslash +:+ "f"
  else if (n =? 13)%N then backslash +:+ "r"
  else if (n <? 32)%N then backslash +:+ "u00" +:+ hex_digit (n / 16) +:+ hex_digit (n mod 16)
  else String c "".

Fixpoint quote_chars (s : string) : string :=
  match s with
  | EmptyString => ""
  | String c s' => quote_char c +:+ quote_chars s'
  end.

Definition JSON_stringify_string (s : string) : string :=
  dquote +:+ quote_chars s +:+ dquote.

Definition JSON_stringify_strings (l : list string) : string :=
  "[" +:+ String.concat "," (JSON_stringify_string <$> l) +:+ "]".

Definition buildUserPrompt (r : GenerationRequest) : string :=
  String.concat nl [
  "Generate " +:+ pretty (default 3 (count r)) +:+ " project briefs for :";
  "{";
  "  " +:+ dquote +:+ "level" +:+ dquote +:+ ": " +:+ dquote +:+ level_string (level r) +:+ dquote +:+ ",";
  "  " +:+ dquote +:+ "domain" +:+ dquote +:+ ": " +:+ dquote +:+ domain r +:+ dquote +:+ ",";
  "  " +:+ dquote +:+ "tech_focus" +:+ dquote +:+ ": " +:+ dquote +:+ tech_focus_string (tech_focus r) +:+ dquote +:+ ",";
  "  " +:+ dquote +:+ "stack" +:+ dquote +:+ ": " +:+ JSON_stringify_strings (stack r) +:+ ",";
  "  " +:+ dquote +:+ "duration" +:+ dquote +:+ ": " +:+ dquote +:+ duration r +:+ dquote;
  "}";
  "";
  "Authoring guidelines:";
  "1. Make the business_problem two vivid sentences that expose market tension and stakes.";
  "2. Ensure goals are action-oriented, start with strong verbs, and stay within 12 words.";
  "3. Deliverables must be tangible outputs teams can hand over at the end of the engagement.";
  "4. Assessment criteria should cover success signals for UX, engineering quality, and business alignment.";
  "5. Do not copy or lightly edit the example; invent a new scenario within FinTech.";
  "";
  "Return ONLY the JSON object conforming to the schema."
  ].

(** The ambient state of the process that a script can read. *)
Record Process : Type := mkProcess {
  argv : list string;
  env : gmap string string;
}.

(** A chunk of a streamed chat completion; every level is optional. *)
Record Delta : Type := mkDelta { content : option string }.
Record Choice : Type := mkChoice { delta : option Delta }.
Record Chunk : Type := mkChunk { choices : option (list Choice) }.

(** The stream delivers its chunks in order and may then fail. *)
Record ChatStream : Type := mkChatStream {
  chunks : list Chunk;
  failure : option Exception;
}.

(** [chunk.choices?.[0]?.delta?.content]. *)
Definition chunk_content (chunk : Chunk) : option string :=
  c ← choices chunk ≫= head; d ← delta c; content d.

(** The body of the [for await] loop, with the flag it updates. *)
Definition on_chunk (st : bool * list Effect) (chunk : Chunk) : bool * list Effect :=
  let content := chunk_content chunk in
  if truthy content then (true, st.2 ++ [stdout_write (default "" content)])
  else st.

Section Main.
Variable process : Process.

(** [new OpenAI({ apiKey }).chat.completions.create(payload)]. *)
Variable chat_completions_create :
  option string → ChatCompletions.Payload → Outcome Exception ChatStream.

Definition main : list Effect * Outcome Exception () :=
  if negb (truthy (env process !! "OPENAI_API_KEY")) then
    ([console_error [AStr "Missing OPENAI_API_KEY. Set it in your environment or .env file."]],
     Throw (Exit 1))
  else
    let systemPrompt := buildSystemPrompt in
    let userPrompt :=
      buildUserPrompt
        {| level := junior;
           domain := "FinTech";
           tech_focus := frontend;
           stack := ["React"; "TypeScript"; "TailwindCSS"];
           duration := "2 weeks";
           count := Some 3 |} in
    let targetModel := "gpt-4o-mini" in
    let payload :=
      {| ChatCompletions.model := targetModel;
         ChatCompletions.stream := true;
         ChatCompletions.messages :=
           [ mkMessage "system" systemPrompt; mkMessage "user" userPrompt ];
         ChatCompletions.temperature := (3, 10) |} in
    match chat_completions_create (env process !! "OPENAI_API_KEY") payload with
    | Throw e => ([openai_chat_completions_create payload], Throw e)
    | Ok stream =>
        let '(hadContent, o) :=
          foldl on_chunk
            (false, [openai_chat_completions_create payload;
                     console_log [AStr ("--- streaming start ---" +:+ nl)]])
            (chunks stream) in
        match failure stream with
        | Some e => (o, Throw e)
        | None =>
            (o ++ (if negb hadContent
                   then [console_error [AStr (nl +:+ "(No streamed content received)")]]
                   else [])
               ++ [console_log [AStr (nl +:+ nl +:+ "--- streaming end ---")]],
             Ok ())
        end
    end.

(** [main().catch(...)]: the console output and the exit code. *)
Definition run : list Effect * Z :=
  match main with
  | (o, Ok _) => (o, 0)
  | (o, Throw (Exit c)) => (o, c)
  | (o, Throw err) => (o ++ [console_error [AStr "Error:"; AErr err]], 1)
  end.
End Main.

(** The fragments written to standard output, and the requests sent to the
    LLM, in a trace. *)
Definition written (o : list Effect) : list string :=
  omap (λ e, match e with stdout_write s => Some s | _ => None end) o.

Definition requests (o : list Effect) : list ChatCompletions.Payload :=
  omap (λ e, match e with openai_chat_completions_create p => Some p | _ => None end) o.

(** The non-empty fragments of a stream. *)
Definition fragments (l : list Chunk) : list string :=
  omap (λ c, if truthy (chunk_content c) then chunk_content c else None) l.

(** The generation request that [main] passes to [buildUserPrompt], and the
    payload that it sends. *)
Definition main_request : GenerationRequest :=
  {| level := junior;
     domain := "FinTech";
     tech_focus := frontend;
     stack := ["React"; "TypeScript"; "TailwindCSS"];
     duration := "2 weeks";
     count := Some 3 |}.

Definition main_payload : ChatCompletions.Payload :=
  {| ChatCompletions.model := "gpt-4o-mini";
     ChatCompletions.stream := true;
     ChatCompletions.messages :=
       [ mkMessage "system" buildSystemPrompt;
         mkMessage "user" (buildUserPrompt main_request) ];
     ChatCompletions.temperature := (3, 10) |}.

(** Command-line arguments that ask for another request. *)
Definition other_argv : list string :=
  ["--level"; "senior"; "--domain"; "HealthTech"; "--tech_focus"; "backend";
   "--stack"; "Go"; "--duration"; "1 month"; "--count"; "5"].

Definition other_request : GenerationRequest :=
  {| level := senior;
     domain := "HealthTech";
     tech_focus := backend;
     stack := ["Go"];
     duration := "1 month";
     count := Some 5 |}.

End Stream.

(** ** The rows that the pipeline sends to the datastore *)

(** Property [k] of a value that is not [null]. *)
Definition prop (v : json) (k : string) : jsvalue :=
  match v with
  | JObj m => m !! k
  | _ => None
  end.

(** The row of table [briefs] for a brief object. *)
Definition briefRow (m : gmap string json) (embedding : list Z) : BriefRow :=
  {| row_level := m !! "level";
     row_domain := m !! "domain";
     row_tech_focus := m !! "tech_focus";
     row_stack := m !! "stack";
     row_duration := m !! "duration";
     row_brief := m !! "brief";
     row_business_problem := m !! "business_problem";
     row_target_users := m !! "target_users";
     row_goals := m !! "goals";
     row_deliverables := m !! "deliverables";
     row_assessment_criteria := m !! "assessment_criteria";
     row_company_size := m !! "company_size";
     row_complexity := m !! "complexity";
     row_embedding := embedding |}.

(** The row of table [brief_user_stories] for the story at 0-based position
    [index]. *)
Definition storyRow (briefId : jsvalue) (index : nat) (story : json) : UserStoryRow :=
  {| brief_id := briefId;
     story_order := index + 1;
     title := prop story "title";
     description := prop story "description";
     acceptance_criteria := prop story "acceptance_criteria";
     priority := prop story "priority";
     story_complexity := prop story "complexity" |}.

(** [JSON.parse] on the few texts that the examples use. *)
Definition JSON_parse_literal (text : string) : Outcome Exception json :=
  if bool_decide (text = "null") then Ok JNull
  else if bool_decide (text = "true") then Ok (JBool true)
  else if bool_decide (text = "false") then Ok (JBool false)
  else if bool_decide (text = "[]") then Ok (JArr [])
  else if bool_decide (text = "{}") then Ok (JObj ∅)
  else Throw (SyntaxError "Unexpected token").

(** ** A reference datastore

    Two tables held in memory, used to run the pipeline on concrete inputs.
    An insert fails with the message of the table's outage when there is
    one, and appends otherwise; the primary key of a new brief is its rank
    in the table. *)
Module MemoryStore.

Record Store : Type := mkStore {
  briefs : list (Z * BriefRow);
  brief_user_stories : list UserStoryRow;
  briefs_outage : option string;
  brief_user_stories_outage : option string;
}.

Definition row_json (id : Z) (row : BriefRow) : json :=
  JObj (list_to_map (omap (λ kv : string * jsvalue, (kv.1,.) <$> kv.2)
    [("id", Some (JNum id));
     ("level", row_level row);
     ("domain", row_domain row);
     ("tech_focus", row_tech_focus row);
     ("stack", row_stack row);
     ("duration", row_duration row);
     ("brief", row_brief row);
     ("business_problem", row_business_problem row);
     ("target_users", row_target_users row);
     ("goals", row_goals row);
     ("deliverables", row_deliverables row);
     ("assessment_criteria", row_assessment_criteria row);
     ("company_size", row_company_size row);
     ("complexity", row_complexity row);
     ("embedding", Some (JArr (JNum <$> row_embedding row)))])).

Definition briefs_insert_select_single (_ : ()) (row : BriefRow) (st : Store)
    : Store * Outcome Exception Chat.SingleResponse :=
  match briefs_outage st with
  | Some msg =>
      (st, Ok {| Chat.data := JNull; Chat.error := Some (Chat.mkPostgrestError msg) |})
  | None =>
      let id := Z.of_nat (length (briefs st)) + 1 in
      (mkStore (briefs st ++ [(id, row)]) (brief_user_stories st)
               (briefs_outage st) (brief_user_stories_outage st),
       Ok {| Chat.data := row_json id row; Chat.error := None |})
  end.

Definition brief_user_stories_insert (_ : ()) (rows : list UserStoryRow) (st : Store)
    : Store * Outcome Exception (option Chat.PostgrestError) :=
  match brief_user_stories_outage st with
  | Some msg => (st, Ok (Some (Chat.mkPostgrestError msg)))
  | None =>
      (mkStore (briefs st) (brief_user_stories st ++ rows)
               (briefs_outage st) (brief_user_stories_outage st),
       Ok None)
  end.

Definition empty : Store := mkStore [] [] None None.

Definition insertBriefInDB := Chat.insertBriefInDB
  (W := Store) briefs_insert_select_single brief_user_stories_insert ().

End MemoryStore.

(** ** What the schema asks of one field

    The requirement that [briefSchema] puts on the value of field [f]: a
    non-empty array of strings for the array fields, a string of the closed
    set for the enum fields, a string otherwise. *)
Definition field_conforms (f : string) (v : jsvalue) : bool :=
  if bool_decide (f ∈ array_fields) then is_nonempty_string_array v
  else match list_to_map (M := gmap string (list string)) enum_fields !! f with
       | Some values => in_enum values v
       | None => is_string v
       end.

(** An issue located at field [f] or below it (at an element of the array
    that the field holds). *)
Definition located_at (i : Zod.ZodIssue) (f : string) : Prop :=
  Zod.path i = [Zod.PKey f] ∨ ∃ n, Zod.path i = [Zod.PKey f; Zod.PIdx n].

(** ** Reading the reports of the batch validator *)

(** The header lines of the failure reports in a console trace. *)
Definition report_headers (o : list Effect) : list string :=
  omap (λ e, match e with console_error [AStr h] => Some h | _ => None end) o.

(** The 1-based positions of the briefs that fail the schema, counting from
    [index]. *)
Fixpoint failing_from (index : nat) (briefs : list json) : list nat :=
  match briefs with
  | [] => []
  | b :: rest =>
      (if ValidateDataset.fails b then [(index + 1)%nat] else []) ++ failing_from (S index) rest
  end.

(** The validated values of the elements that pass a schema, in order. *)
Definition parsed (schema : Zod.Schema) (l : list json) : list json :=
  omap (λ b, match Zod.safeParse schema b with
             | Zod.Success d => Some d
             | Zod.Failure _ => None
             end) l.

(** ** Reading the datastore calls of a trace *)

(** The row of table [briefs] built from a brief that is not [null]. *)
Definition row_of (brief : json) (embedding : list Z) : BriefRow :=
  {| row_level := prop brief "level";
     row_domain := prop brief "domain";
     row_tech_focus := prop brief "tech_focus";
     row_stack := prop brief "stack";
     row_duration := prop brief "duration";
     row_brief := prop brief "brief";
     row_business_problem := prop brief "business_problem";
     row_target_users := prop brief "target_users";
     row_goals := prop brief "goals";
     row_deliverables := prop brief "deliverables";
     row_assessment_criteria := prop brief "assessment_criteria";
     row_company_size := prop brief "company_size";
     row_complexity := prop brief "complexity";
     row_embedding := embedding |}.

(** A row of table [briefs] that was built from [brief], with some
    embedding. *)
Definition from_validated (row : BriefRow) (brief : json) : Prop :=
  ∃ embedding, row = row_of brief embedding.

(** The rows sent to table [briefs], and the batches of rows sent to table
    [brief_user_stories], in a trace. *)
Definition inserted_briefs (t : list Effect) : list BriefRow :=
  omap (λ e, match e with supabase_insert_brief row => Some row | _ => None end) t.

Definition inserted_stories (t : list Effect) : list (list UserStoryRow) :=
  omap (λ e, match e with supabase_insert_user_stories rows => Some rows | _ => None end) t.

(** The requests sent to [client.responses.create] in a trace. *)
Definition llm_requests (t : list Effect) : list Responses.Payload :=
  omap (λ e, match e with openai_responses_create p => Some p | _ => None end) t.

(** ** [src/chat.ts]: the entry point of the generation pipeline *)

(** A call of a function of a module or library that is not at hand: it may
    change the outside world and may throw, and leaves no record in the
    trace. *)
Definition silent {W A} (f : W → W * Outcome Exception A) : M W A :=
  λ w, let '(w', r) := f w in (w', [], r).

Module ChatMain.

(** The value that [console.log] prints for an insertion summary. *)
Definition summary_json (s : Chat.InsertionSummary) : json :=
  JObj (<["brief" := Chat.brief s]>
          (<["userStoriesInserted" := JNum (Z.of_nat (Chat.userStoriesInserted s))]> ∅)).

Section Main.
Context {W OpenAI SupabaseClient Embedder CliArgs : Type}.

(** [process.env]. *)
Variable env : gmap string string.

(** As in [Chat]: the imports of [./openaiClient.js], [./supabaseClient.js]
    and [./schema/brief.js], [JSON.parse] and the methods of the clients. *)
Variable createOpenAIClient : string → OpenAI.
Variable createSupabaseClient : string → string → SupabaseClient.
Variable briefSchema : Zod.Schema.
Variable JSON_parse : string → Outcome Exception json.
Variable responses_create :
  OpenAI → Responses.Payload → W → W * Outcome Exception Chat.Response.
Variable briefs_insert_select_single :
  SupabaseClient → BriefRow → W → W * Outcome Exception Chat.SingleResponse.
Variable brief_user_stories_insert :
  SupabaseClient → list UserStoryRow → W → W * Outcome Exception (option Chat.PostgrestError).

(** Imported from [./cliArgs.js], [./prompts.js] and [./outputWriter.js]. *)
Variable parseCliArgs : W → W * Outcome Exception CliArgs.
Variable buildSystemPrompt : W → W * Outcome Exception string.
Variable buildUserPrompt : CliArgs → W → W * Outcome Exception string.
Variable writeBriefsToFile : json → W → W * Outcome Exception string.

(** [pipeline(task, model)] of the transformers library, the call of the
    feature extractor that it returns (with [Array.from(output.data)]), and
    [JSON.stringify]. *)
Variable pipeline : string → string → W → W * Outcome Exception Embedder.
Variable generateEmbedding : Embedder → string → W → W * Outcome Exception (list Z).
Variable JSON_stringify : json → string.

Definition writeBriefsToFilepath (briefs : json) : M W string :=
  filePath ← silent (writeBriefsToFile briefs);
  _ ← emit (console_log [AStr ("Briefs saved to " +:+ filePath)]);
  mret filePath.

(** The body of the loop [for (const brief of briefs)] of [main]; its
    result is the summary that the loop pushes. *)
Definition embed_and_insert (embedder : Embedder) (supabaseClient : SupabaseClient)
    (brief : json) (_ : nat) : M W Chat.InsertionSummary :=
  embedding ← silent (generateEmbedding embedder (JSON_stringify brief));
  Chat.insertBriefInDB briefs_insert_select_single brief_user_stories_insert
    supabaseClient brief embedding.

(** [main], up to the answer of the LLM (the statements before the first
    [console.log]). *)
Definition generate : M W (Embedder * SupabaseClient * json) :=
  embedder ← silent (pipeline "feature-extraction" "Supabase/gte-small");
  supabaseClient ← lift (Chat.getSupabaseClient env createSupabaseClient);
  cliArgs ← silent parseCliArgs;
  systemPrompt ← silent buildSystemPrompt;
  userPrompt ← silent (buildUserPrompt cliArgs);
  let targetModel := "gpt-4o-mini" in
  client ← Chat.getOpenAIClient env createOpenAIClient;
  jsonParsedResponse ←
    Chat.getResponseFromOpenAI JSON_parse responses_create
      client userPrompt systemPrompt targetModel;
  mret (embedder, supabaseClient, jsonParsedResponse).

(** [main], from the first [console.log] on: validation, the sequential
    loop over the briefs (which stops at the first exception and collects the
    summaries, as [array_map] does), and the output file. *)
Definition persist (embedder : Embedder) (supabaseClient : SupabaseClient)
    (jsonParsedResponse : json) : M W () :=
  _ ← emit (console_log [AStr "jsonParsedResponse : "; AValue (Some jsonParsedResponse)]);
  briefs ← Chat.parseBriefs briefSchema jsonParsedResponse;
  _ ← emit (console_log [AStr "parsed briefs : "; AValue (Some (JArr briefs))]);
  insertionSummaries ← array_map (embed_and_insert embedder supabaseClient) 0%nat briefs;
  _ ← emit (console_log [AStr "Inserted Briefs:";
                         AValue (Some (JArr (summary_json <$> insertionSummaries)))]);
  _ ← writeBriefsToFilepath jsonParsedResponse;
  mret ().

Definition main : M W () :=
  g ← generate;
  persist g.1.1 g.1.2 g.2.

(** [main().catch(...)]: the final state, the trace and the exit code. *)
Definition run (w : W) : W * list Effect * Z :=
  match main w with
  | (w', o, Ok _) => (w', o, 0)
  | (w', o, Throw (Exit c)) => (w', o, c)
  | (w', o, Throw err) => (w', o ++ [console_error [AStr "Error:"; AErr err]], 1)
  end.

End Main.

(** The paths that a trace reports as saved: the lines that [console.log]
    prints with one string. *)
Definition saved (t : list Effect) : list string :=
  omap (λ e, match e with console_log [AStr line] => Some line | _ => None end) t.

End ChatMain.

(** ** A reference environment for the entry point

    The services besides the datastore, for runs on concrete inputs: no
    command-line arguments, fixed prompts, an embedder that answers with an
    empty vector, an API that answers with the example brief, a [JSON.parse]
    that knows this answer, and a file writer that fails. *)
Module Reference.

Definition env : gmap string string :=
  list_to_map [("OPENAI_API_KEY", "sk-test");
               ("SUPABASE_PROJECT_URL", "https://db.example");
               ("SUPABASE_ANON_KEY", "anon")].

Definition JSON_parse (text : string) : Outcome Exception json :=
  if bool_decide (text = "example") then Ok (JArr [JObj example_brief])
  else JSON_parse_literal text.

Definition JSON_stringify (_ : json) : string := "".

Definition responses_create (_ : ()) (_ : Responses.Payload) (w : MemoryStore.Store)
    : MemoryStore.Store * Outcome Exception Chat.Response :=
  (w, Ok (Chat.mkResponse (Some "example"))).

Definition main (env : gmap string string) : M MemoryStore.Store () :=
  ChatMain.main env (λ _, ()) (λ _ _, ()) briefSchema JSON_parse responses_create
    MemoryStore.briefs_insert_select_single MemoryStore.brief_user_stories_insert
    (λ w, (w, Ok ())) (λ w, (w, Ok "system")) (λ _ w, (w, Ok "user"))
    (λ _ w, (w, Throw (Rejected "read-only file system")))
    (λ _ _ w, (w, Ok ())) (λ _ _ w, (w, Ok [])) JSON_stringify.

Definition persist : json → M MemoryStore.Store () :=
  ChatMain.persist briefSchema
    MemoryStore.briefs_insert_select_single MemoryStore.brief_user_stories_insert
    (λ _ w, (w, Throw (Rejected "read-only file system")))
    (λ _ _ w, (w, Ok [])) JSON_stringify () ().

End Reference.

(** ** Reading a stream *)

(** The text of a chunk: the content of the delta of its first choice, or
    nothing. *)
Definition chunk_text (c : Stream.Chunk) : string := default "" (Stream.chunk_content c).

(** ** The schema of the pipeline *)

(** Modelled from the spec: the types of the five attributes of a UserStory
    record. The module [./schema/brief.js], from which [chat.ts] imports
    [briefSchema] and the type [ProjectBrief], is not among the sources, and
    the specification names the attributes of a user story (title,
    description, acceptance criteria, priority, complexity) without their
    types: any schema may stand for each of them. *)
Record UserStoryTypes : Type := mkUserStoryTypes {
  title_schema : Zod.Schema;
  description_schema : Zod.Schema;
  acceptance_criteria_schema : Zod.Schema;
  priority_schema : Zod.Schema;
  complexity_schema : Zod.Schema;
}.

(** Modelled from the spec: the schema of a UserStory record of the absent
    [./schema/brief.js], an object with the five attributes that the
    specification lists, under the names by which [insertBriefInDB] reads
    them ([story.title], [story.description], [story.acceptance_criteria],
    [story.priority], [story.complexity]). *)
Definition userStorySchema (t : UserStoryTypes) : Zod.Schema :=
  Zod.ZObject [
    ("title", title_schema t);
    ("description", description_schema t);
    ("acceptance_criteria", acceptance_criteria_schema t);
    ("priority", priority_schema t);
    ("complexity", complexity_schema t)
  ].

(** Modelled from the spec: the schema [briefSchema] of the absent
    [./schema/brief.js], which [parseBriefs] and [parseSingleBrief] of
    [chat.ts] validate with. A ProjectBrief of the specification has the
    thirteen attributes that [validateDataset.ts] also declares, and a nested
    list of UserStory records, which [insertBriefInDB] reads as
    [brief.user_stories]; the specification asks of [stack], [goals] and
    [deliverables] that they are non-empty, and not of the list of user
    stories. *)
Definition projectBriefSchema (t : UserStoryTypes) : Zod.Schema :=
  Zod.ZObject (brief_shape ++ [("user_stories", Zod.ZArray (userStorySchema t) 0)]).




(** * Properties *)

(** ** The validation library *)
Section ZodFacts.
Import Zod.

Lemma parse_object_eq shape p m :
  parse (ZObject shape) p (Some (JObj m)) = merge_object (parse_fields p m shape).
Proof.
  simpl. f_equal. unfold parse_fields.
  induction shape as [|[k fs] rest IH]; [done|].
  simpl. by rewrite IH.
Qed.

Lemma merge_object_issue rs k r i :
  (k, r) ∈ rs → i ∈ issues_of r →
  ∃ iss, merge_object rs = inr iss ∧ i ∈ iss.
Proof.
  intros Hin Hi. unfold merge_object.
  assert (Hc : i ∈ concat ((λ kr, issues_of kr.2) <$> rs)).
  { apply list_elem_of_In, in_concat. exists (issues_of r).
    split; [|by apply list_elem_of_In].
    apply list_elem_of_In, list_elem_of_fmap. by exists (k, r). }
  destruct (concat _) as [|i0 iss] eqn:E.
  - by apply not_elem_of_nil in Hc.
  - eauto.
Qed.

(** An issue found at a field of the shape is an issue of the object. *)
Lemma parse_object_issue shape p m k fs i :
  (k, fs) ∈ shape →
  i ∈ issues_of (parse fs (p ++ [PKey k]) (m !! k)) →
  ∃ iss, parse (ZObject shape) p (Some (JObj m)) = inr iss ∧ i ∈ iss.
Proof.
  intros Hin Hi. rewrite parse_object_eq.
  apply (merge_object_issue _ k (parse fs (p ++ [PKey k]) (m !! k))); [|done].
  unfold parse_fields. apply list_elem_of_fmap. by exists (k, fs).
Qed.

Lemma parse_fields_valid shape p m :
  (∀ k fs, (k, fs) ∈ shape →
     ∃ x, m !! k = Some x ∧ parse fs (p ++ [PKey k]) (m !! k) = inl x) →
  concat ((λ kr, issues_of kr.2) <$> parse_fields p m shape) = [] ∧
  ∀ i, (list_to_map (omap (λ kr, (kr.1,.) <$> value_of kr.2) (parse_fields p m shape))
          : gmap string json) !! i
       = if bool_decide (i ∈ shape.*1) then m !! i else None.
Proof.
  induction shape as [|[k fs] rest IH]; intros Hall.
  - split; [done|]. intros i. simpl. by rewrite lookup_empty.
  - destruct (Hall k fs) as (x & Hx & Hp); [by left|].
    destruct IH as [IH1 IH2]; [intros; apply Hall; by right|].
    unfold parse_fields in *. simpl. rewrite Hp. simpl. split; [done|].
    intros i. rewrite lookup_insert.
    destruct (decide (k = i)) as [->|Hne].
    + rewrite bool_decide_eq_true_2; [done | by left].
    + rewrite IH2. destruct (decide (i ∈ rest.*1)) as [Hi|Hi].
      * rewrite (bool_decide_eq_true_2 _ Hi).
        rewrite bool_decide_eq_true_2; [done | by right].
      * rewrite (bool_decide_eq_false_2 _ Hi).
        rewrite bool_decide_eq_false_2; [done|].
        intros [?|?]%elem_of_cons; [congruence | done].
Qed.

(** When every field of the shape is present and valid, the parsed object
    is the input without the keys that the shape does not list. *)
Lemma parse_object_valid shape p m :
  (∀ k fs, (k, fs) ∈ shape →
     ∃ x, m !! k = Some x ∧ parse fs (p ++ [PKey k]) (m !! k) = inl x) →
  parse (ZObject shape) p (Some (JObj m))
  = inl (JObj (filter (λ kv, kv.1 ∈ shape.*1) m)).
Proof.
  intros Hall. rewrite parse_object_eq. unfold merge_object.
  destruct (parse_fields_valid shape p m Hall) as [-> Hl].
  do 2 f_equal. apply map_eq. intros i. rewrite Hl, map_lookup_filter.
  destruct (m !! i) as [x|] eqn:E; simpl.
  - case_bool_decide; [by rewrite option_guard_True | by rewrite option_guard_False].
  - by case_bool_decide.
Qed.

Lemma parse_string_ok p v :
  is_string v = true → ∃ x, v = Some x ∧ parse ZString p v = inl x.
Proof. destruct v as [[]|]; try done. eauto. Qed.

Lemma parse_enum_ok values p v :
  in_enum values v = true → ∃ x, v = Some x ∧ parse (ZEnum values) p v = inl x.
Proof.
  destruct v as [[]|]; try done. simpl. intros ->. eauto.
Qed.

Lemma imap_parse_strings (g : nat → list PathSeg) l :
  forallb (λ y, is_string (Some y)) l = true →
  imap (λ i x, parse ZString (g i) (Some x)) l = inl <$> l.
Proof.
  revert g. induction l as [|x l IH]; intros g; [done|].
  simpl. intros [Hx Hl]%andb_true_iff.
  f_equal; [by destruct x | exact (IH (g ∘ S) Hl)].
Qed.

Lemma parse_string_array_ok p v :
  is_nonempty_string_array v = true →
  ∃ x, v = Some x ∧ parse (ZArray ZString 1) p v = inl x.
Proof.
  destruct v as [[| | | |[|y l]|]|]; try done.
  unfold is_nonempty_string_array. intros H. eexists. split; [done|].
  change (parse (ZArray ZString 1) p (Some (JArr (y :: l))))
    with (merge_array
            (if bool_decide (length (y :: l) < 1)%nat then [mkIssue (too_small 1) p] else [])
            (imap (λ i x, parse ZString (p ++ [PIdx i]) (Some x)) (y :: l))).
  rewrite (imap_parse_strings (λ i, p ++ [PIdx i])) by done.
  unfold merge_array. rewrite bool_decide_eq_false_2 by (simpl; lia).
  simpl. rewrite <- list_fmap_compose.
  replace (concat ((issues_of ∘ inl) <$> l)) with (@nil ZodIssue).
  2:{ clear. induction l; simpl; auto. }
  simpl. do 3 f_equal. clear. induction l; simpl; [done|]. by f_equal.
Qed.

End ZodFacts.

(** ** The brief schema *)
Section BriefSchema.
Import Zod.

Lemma brief_shape_keys : brief_shape.*1 = required_fields.
Proof. reflexivity. Qed.

Lemma parse_undefined fs p :
  ∃ c, parse fs p None = inr [mkIssue c p].
Proof. destruct fs; simpl; eauto. Qed.

Lemma parse_enum_reject values p v :
  in_enum values (Some v) = false →
  ∃ c, parse (ZEnum values) p (Some v) = inr [mkIssue c p].
Proof.
  destruct v; simpl; eauto. intros ->. eauto.
Qed.

(** An issue located at a field of the brief makes [safeParse] fail with an
    error that names the field. *)
Lemma brief_field_issue m f fs c :
  (f, fs) ∈ brief_shape →
  parse fs [PKey f] (m !! f) = inr [mkIssue c [PKey f]] →
  ∃ e, safeParse briefSchema (JObj m) = Failure e ∧ names_field e f.
Proof.
  intros Hin Hp.
  destruct (parse_object_issue brief_shape [] m f fs (mkIssue c [PKey f]) Hin)
    as (iss & Hiss & Hi).
  { simpl. rewrite Hp. by left. }
  exists (mkZodError iss). split.
  - unfold safeParse. change briefSchema with (ZObject brief_shape). by rewrite Hiss.
  - by exists (mkIssue c [PKey f]).
Qed.

Lemma enum_field_in_shape f values :
  (f, values) ∈ enum_fields → (f, ZEnum values) ∈ brief_shape.
Proof.
  unfold enum_fields. intros H.
  repeat (apply elem_of_cons in H as [H|H]; [injection H as -> ->; repeat constructor|]).
  by apply not_elem_of_nil in H.
Qed.

Lemma array_field_in_shape f :
  f ∈ array_fields → (f, ZArray ZString 1) ∈ brief_shape.
Proof.
  unfold array_fields. intros H.
  repeat (apply elem_of_cons in H as [->|H]; [repeat constructor|]).
  by apply not_elem_of_nil in H.
Qed.

Lemma well_formed_fields m :
  well_formed_brief m = true →
  ∀ k fs, (k, fs) ∈ brief_shape →
    ∃ x, m !! k = Some x ∧ parse fs ([] ++ [PKey k]) (m !! k) = inl x.
Proof.
  unfold well_formed_brief. rewrite !andb_true_iff.
  intros [[[[[[[[[[[[H1 H2] H3] H4] H5] H6] H7] H8] H9] H10] H11] H12] H13] k fs Hin.
  unfold brief_shape, briefSchema in Hin.
  repeat (apply elem_of_cons in Hin as [Hin|Hin];
          [injection Hin as -> ->;
           first [by apply parse_enum_ok | by apply parse_string_ok
                 | by apply parse_string_array_ok]|]).
  by apply not_elem_of_nil in Hin.
Qed.

Lemma strip_unknown_id m :
  strip_unknown m = m ↔ ∀ k, is_Some (m !! k) → k ∈ required_fields.
Proof.
  unfold strip_unknown. split.
  - intros Heq k [x Hx]. rewrite <- Heq in Hx.
    by apply map_lookup_filter_Some in Hx as [_ ?].
  - intros Hk. apply map_filter_id. intros i x Hx. apply Hk. by exists x.
Qed.

End BriefSchema.

Example example_brief_valid :
  Zod.safeParse briefSchema (JObj example_brief) = Zod.Success (JObj example_brief).
Proof. vm_compute. reflexivity. Qed.

Example example_brief_bad :
  Zod.safeParse briefSchema
    (JObj (<["level" := JStr "expert"]> (<["goals" := JArr []]> (delete "domain" example_brief))))
  = Zod.Failure (Zod.mkZodError [
      Zod.mkIssue (Zod.invalid_enum_value ["junior"; "intermediate"; "senior"] "expert")
                  [Zod.PKey "level"];
      Zod.mkIssue (Zod.invalid_type (Zod.ExpType Zod.TString) Zod.TUndefined)
                  [Zod.PKey "domain"];
      Zod.mkIssue (Zod.too_small 1) [Zod.PKey "goals"]]).
Proof. vm_compute. reflexivity. Qed.

(** A value that is not an object is rejected at the root: the issue has the
    empty path. *)
Example not_an_object_rejected :
  Zod.safeParse briefSchema (JNum 42)
  = Zod.Failure (Zod.mkZodError
      [Zod.mkIssue (Zod.invalid_type (Zod.ExpType Zod.TObject) Zod.TNumber) []]).
Proof. reflexivity. Qed.

(** C2 (as stated, refuted): a well-formed brief object that has a key the
    schema does not list passes validation, but the validated value is not
    the input object. *)
Lemma safeParse_well_formed_changed :
  well_formed_brief brief_with_user_stories = true ∧
  Zod.safeParse briefSchema (JObj brief_with_user_stories)
  ≠ Zod.Success (JObj brief_with_user_stories).
Proof.
  split; [vm_compute; reflexivity|].
  intros H.
  assert (Hd : Zod.safeParse briefSchema (JObj brief_with_user_stories)
               = Zod.Success (JObj example_brief)) by (vm_compute; reflexivity).
  rewrite Hd in H.
  apply (f_equal (λ r, match r with
                       | Zod.Success (JObj m) => m !! "user_stories"
                       | _ => None
                       end)) in H.
  vm_compute in H. discriminate H.
Qed.

(** C2 (amended): for every object that conforms to the brief schema,
    [safeParse] succeeds and the validated value is the input object without
    the keys that the schema does not list; it is the input object itself
    exactly when the input has no other key than the thirteen of the
    schema. *)
Theorem safeParse_well_formed (m : gmap string json) :
  well_formed_brief m = true →
  Zod.safeParse briefSchema (JObj m) = Zod.Success (JObj (strip_unknown m)) ∧
  (strip_unknown m = m ↔ ∀ k, is_Some (m !! k) → k ∈ required_fields).
Proof.
  intros Hwf. split; [|apply strip_unknown_id].
  unfold Zod.safeParse. change briefSchema with (Zod.ZObject brief_shape).
  by rewrite (parse_object_valid brief_shape [] m (well_formed_fields m Hwf)).
Qed.

Lemma safeParse_well_formed_witness :
  Zod.safeParse briefSchema (JObj brief_with_user_stories)
  = Zod.Success (JObj (strip_unknown brief_with_user_stories)) ∧
  (strip_unknown brief_with_user_stories = brief_with_user_stories
   ↔ ∀ k, is_Some (brief_with_user_stories !! k) → k ∈ required_fields).
Proof.
  apply (safeParse_well_formed brief_with_user_stories). vm_compute. reflexivity.
Defined.

(** C3 (as stated, refuted): the parsed JSON value [42] has none of the
    required brief fields, and schema validation fails on it; but the
    structured error holds a single issue, located at the root (the value is
    not an object), and names no field. The same holds of every parsed value
    that is not an object ([null], a string, an array). *)
Lemma safeParse_non_object_names_no_field :
  "level" ∈ required_fields ∧ prop (JNum 42) "level" = None ∧
  ∃ e, Zod.safeParse briefSchema (JNum 42) = Zod.Failure e ∧
       Zod.issues e
       = [Zod.mkIssue (Zod.invalid_type (Zod.ExpType Zod.TObject) Zod.TNumber) []] ∧
       ∀ f, ¬ names_field e f.
Proof.
  split; [by left|]. split; [reflexivity|].
  eexists. split; [reflexivity|]. split; [reflexivity|].
  intros f (i & Hi & Hp). simpl in Hi.
  apply list_elem_of_singleton in Hi as ->. discriminate Hp.
Qed.

(** C3 (amended): for every parsed JSON object that misses a required field,
    or has an enum field outside its closed set, or has an empty [stack],
    [goals] or [deliverables], schema validation fails and the structured
    error has an issue located at the offending field. *)
Theorem safeParse_names_violation (m : gmap string json) (f : string) :
  field_violation m f →
  ∃ e, Zod.safeParse briefSchema (JObj m) = Zod.Failure e ∧ names_field e f.
Proof.
  intros [Hf Hm | values v Hf Hm Hv | Hf Hm].
  - rewrite <- brief_shape_keys in Hf.
    apply list_elem_of_fmap in Hf as ([k fs] & -> & Hin). simpl in Hm.
    destruct (parse_undefined fs [Zod.PKey k]) as [c Hc].
    apply (brief_field_issue m k fs c Hin). simpl. by rewrite Hm.
  - destruct (parse_enum_reject values [Zod.PKey f] v Hv) as [c Hc].
    apply (brief_field_issue m f (Zod.ZEnum values) c (enum_field_in_shape f values Hf)).
    by rewrite Hm.
  - apply (brief_field_issue m f (Zod.ZArray Zod.ZString 1) (Zod.too_small 1)
             (array_field_in_shape f Hf)).
    by rewrite Hm.
Qed.

Lemma safeParse_names_violation_witness :
  ∃ e, Zod.safeParse briefSchema (JObj (<["goals" := JArr []]> example_brief)) = Zod.Failure e
       ∧ names_field e "goals".
Proof.
  apply (safeParse_names_violation (<["goals" := JArr []]> example_brief) "goals").
  apply empty_array; [repeat constructor | vm_compute; reflexivity].
Defined.

(** ** The batch validator *)
Section BatchValidation.
Import ValidateDataset.

Lemma reported_app o1 o2 : reported (o1 ++ o2) = reported o1 ++ reported o2.
Proof. apply omap_app. Qed.

Lemma validated_app o1 o2 : validated (o1 ++ o2) = validated o1 ++ validated o2.
Proof. apply omap_app. Qed.

Lemma filter_fails_le (l : list json) : (length (List.filter fails l) ≤ length l)%nat.
Proof. induction l as [|x l IH]; simpl; [lia|]. destruct (fails x); simpl; lia. Qed.

(** The loop invariant of [briefs.forEach]. *)
Lemma forEach_check l : ∀ index st,
  errorCount (forEach check index l st)
    = (errorCount st + length (List.filter fails l))%nat ∧
  validCount (forEach check index l st)
    = (validCount st + (length l - length (List.filter fails l)))%nat ∧
  reported (out (forEach check index l st)) = reported (out st) ++ errors_of l ∧
  validated (out (forEach check index l st)) = validated (out st) ++ l.
Proof.
  induction l as [|x l IH]; intros index st.
  - simpl. rewrite !app_nil_r. repeat split; lia.
  - simpl forEach. destruct (IH (S index) (check st index x)) as (-> & -> & -> & ->).
    pose proof (filter_fails_le l) as Hle.
    unfold check, fails, errors_of in *. simpl.
    destruct (Zod.safeParse briefSchema x) as [d|e]; simpl;
      rewrite ?reported_app, ?validated_app; simpl;
      repeat split; try lia; by rewrite <- ?app_assoc.
Qed.

Lemma length_errors_of l : length (errors_of l) = length (List.filter fails l).
Proof.
  unfold errors_of, fails. induction l as [|x l IH]; [done|].
  simpl. destruct (Zod.safeParse briefSchema x); simpl; [exact IH | f_equal; exact IH].
Qed.

End BatchValidation.

(** C1: in batch-validation mode, for an array of N values of which K fail
    the brief schema, the loop ends with [errorCount = K] and
    [validCount = N - K], and the console holds exactly K formatted errors,
    those of the failing briefs in order. *)
Theorem batch_validation_counts (briefs : list json) :
  let N := length briefs in
  let K := length (List.filter ValidateDataset.fails briefs) in
  let st := ValidateDataset.validate briefs in
  ValidateDataset.errorCount st = K ∧
  ValidateDataset.validCount st = (N - K)%nat ∧
  ValidateDataset.reported (ValidateDataset.out st) = ValidateDataset.errors_of briefs ∧
  length (ValidateDataset.reported (ValidateDataset.out st)) = K.
Proof.
  intros N K st. unfold st, ValidateDataset.validate.
  edestruct (forEach_check briefs 0%nat) as (H1 & H2 & H3 & _).
  rewrite H1, H2, H3. simpl. by rewrite length_errors_of.
Qed.

Example batch_validation_console :
  ValidateDataset.run (λ _, Ok "[]") JSON_parse_literal
  = ([console_log [AStr ("🧩 Validating 0 briefs..." +:+ nl)];
      console_log [AStr "✅ 0 briefs valid"];
      console_log [AStr "🎉 All briefs passed validation!"]], 0).
Proof. vm_compute. reflexivity. Qed.

Example batch_validation_failure_report :
  ValidateDataset.out (ValidateDataset.validate [JNum 42])
  = [console_log [AStr ("🧩 Validating 1 briefs..." +:+ nl)];
     schema_safeParse (JNum 42);
     console_error [AStr "❌ Brief #1 failed validation:"];
     console_error [AZodFormat (Zod.mkZodError
       [Zod.mkIssue (Zod.invalid_type (Zod.ExpType Zod.TObject) Zod.TNumber) []])];
     console_log [AStr ""]].
Proof. vm_compute. reflexivity. Qed.

Example batch_validation_run :
  let st := ValidateDataset.validate
              [JObj example_brief; JNum 42; JObj (delete "domain" example_brief)] in
  ValidateDataset.validCount st = 1%nat ∧ ValidateDataset.errorCount st = 2%nat ∧
  length (ValidateDataset.reported (ValidateDataset.out st)) = 2%nat.
Proof. vm_compute. done. Qed.

(** ** The generation pipeline: parsing *)
Section Parsing.
Context {W : Type}.
Variable schema : Zod.Schema.

Lemma parseSingleBrief_valid (v d : json) (w : W) :
  Zod.safeParse schema v = Zod.Success d →
  Chat.parseSingleBrief schema v w = (w, [schema_safeParse v], Ok d).
Proof. intros H. unfold Chat.parseSingleBrief. cbv [mbind M_bind emit]. by rewrite H. Qed.

Lemma parseSingleBrief_invalid (v : json) e (w : W) :
  Zod.safeParse schema v = Zod.Failure e →
  Chat.parseSingleBrief schema v w = (w, [schema_safeParse v], Throw (InvalidJsonFormat e)).
Proof. intros H. unfold Chat.parseSingleBrief. cbv [mbind M_bind emit]. by rewrite H. Qed.

(** [json.map(parseSingleBrief)] stops at the first element that fails. *)
Lemma array_map_parse_stops pre bad post e (w : W) : ∀ index,
  Forall (λ b, Zod.success (Zod.safeParse schema b) = true) pre →
  Zod.safeParse schema bad = Zod.Failure e →
  array_map (λ x _, Chat.parseSingleBrief schema x) index (pre ++ bad :: post) w
  = (w, schema_safeParse <$> (pre ++ [bad]), Throw (InvalidJsonFormat e)).
Proof.
  induction pre as [|x pre IH]; intros index Hpre Hbad.
  - simpl. cbv [mbind M_bind]. by rewrite (parseSingleBrief_invalid _ _ _ Hbad).
  - apply Forall_cons in Hpre as [Hx Hpre].
    destruct (Zod.safeParse schema x) as [d|] eqn:E; [|done].
    simpl. cbv [mbind M_bind]. rewrite (parseSingleBrief_valid _ _ _ E).
    fold (@array_map W json json). by rewrite (IH (S index) Hpre Hbad).
Qed.

End Parsing.

(** C5: when one brief of the array fails validation, the batch validator
    still hands every element of the array to the schema and reports each
    failure, whereas [parseBriefs] throws at the first invalid brief, having
    handed to the schema the elements up to that one and none after it. *)
Theorem failure_batch_continues_pipeline_aborts {W : Type}
    (schema : Zod.Schema) (pre post : list json) (bad : json) (e : Zod.ZodError) (w : W) :
  Forall (λ b, Zod.success (Zod.safeParse schema b) = true) pre →
  Zod.safeParse schema bad = Zod.Failure e →
  let briefs := pre ++ bad :: post in
  let st := ValidateDataset.validate briefs in
  ValidateDataset.validated (ValidateDataset.out st) = briefs ∧
  ValidateDataset.reported (ValidateDataset.out st) = ValidateDataset.errors_of briefs ∧
  Chat.parseBriefs schema (JArr briefs) w
  = (w, schema_safeParse <$> (pre ++ [bad]), Throw (InvalidJsonFormat e)).
Proof.
  intros Hpre Hbad briefs st. unfold st, ValidateDataset.validate.
  edestruct (forEach_check briefs 0%nat) as (_ & _ & H3 & H4).
  rewrite H3, H4. repeat split.
  by apply array_map_parse_stops.
Qed.

Lemma failure_batch_continues_pipeline_aborts_witness :
  let briefs := [JObj example_brief] ++ JNum 42 :: [JObj example_brief; JNull] in
  let st := ValidateDataset.validate briefs in
  ValidateDataset.validated (ValidateDataset.out st) = briefs ∧
  ValidateDataset.reported (ValidateDataset.out st) = ValidateDataset.errors_of briefs ∧
  Chat.parseBriefs briefSchema (JArr briefs) ()
  = ((), schema_safeParse <$> ([JObj example_brief] ++ [JNum 42]),
     Throw (InvalidJsonFormat (Zod.mkZodError
       [Zod.mkIssue (Zod.invalid_type (Zod.ExpType Zod.TObject) Zod.TNumber) []]))).
Proof.
  apply (failure_batch_continues_pipeline_aborts briefSchema
           [JObj example_brief] [JObj example_brief; JNull] (JNum 42)).
  - repeat constructor.
  - reflexivity.
Defined.

(** C9: a parsed JSON value that is not an array is validated by
    [parseBriefs] as a single brief and returned as a one-element array
    (the only exception thrown is that of a failed validation), whereas the
    batch validator rejects it with an error. *)
Theorem non_array_single_brief_or_rejected {W : Type}
    (schema : Zod.Schema) (v : json) (w : W)
    (readFileSync : string → Outcome Exception string)
    (JSON_parse : string → Outcome Exception json) :
  (∀ l, v ≠ JArr l) →
  readFileSync ValidateDataset.DATASET_PATH ≫= JSON_parse = Ok v →
  Chat.parseBriefs schema v w
  = (w, [schema_safeParse v],
     match Zod.safeParse schema v with
     | Zod.Success d => Ok [d]
     | Zod.Failure e => Throw (InvalidJsonFormat e)
     end) ∧
  ValidateDataset.body readFileSync JSON_parse
  = ([], Throw (Error "Dataset must be an array of briefs")) ∧
  ValidateDataset.run readFileSync JSON_parse
  = ([console_error [AStr "❌ Error reading or parsing dataset:";
                     AErr (Error "Dataset must be an array of briefs")]], 1).
Proof.
  intros Hv Hfile.
  assert (Hp : Chat.parseBriefs schema v w
               = (Chat.parseSingleBrief schema v ≫= λ b, mret [b]) w).
  { destruct v; try done. by destruct (Hv l). }
  assert (Hb : ValidateDataset.body readFileSync JSON_parse
               = ([], Throw (Error "Dataset must be an array of briefs"))).
  { unfold ValidateDataset.body. rewrite Hfile. destruct v; try done. by destruct (Hv l). }
  split; [|split; [done|]].
  - rewrite Hp. cbv [mbind M_bind].
    destruct (Zod.safeParse schema v) as [d|e] eqn:E.
    + by rewrite (parseSingleBrief_valid _ _ _ _ E).
    + by rewrite (parseSingleBrief_invalid _ _ _ _ E).
  - unfold ValidateDataset.run. by rewrite Hb.
Qed.

Lemma non_array_single_brief_or_rejected_witness :
  Chat.parseBriefs briefSchema (JObj ∅) ()
  = ((), [schema_safeParse (JObj ∅)],
     match Zod.safeParse briefSchema (JObj ∅) with
     | Zod.Success d => Ok [d]
     | Zod.Failure e => Throw (InvalidJsonFormat e)
     end) ∧
  ValidateDataset.body (λ _, Ok "{}") JSON_parse_literal
  = ([], Throw (Error "Dataset must be an array of briefs")) ∧
  ValidateDataset.run (λ _, Ok "{}") JSON_parse_literal
  = ([console_error [AStr "❌ Error reading or parsing dataset:";
                     AErr (Error "Dataset must be an array of briefs")]], 1).
Proof.
  apply (non_array_single_brief_or_rejected briefSchema (JObj ∅) ()
           (λ _, Ok "{}") JSON_parse_literal).
  - discriminate.
  - reflexivity.
Defined.

(** ** The generation pipeline: the LLM client wrapper *)

(** C7: the wrapper throws when the API key is absent from the environment,
    throws when the completed response has no output text or an empty one,
    and otherwise returns what [JSON.parse] makes of the output text. *)
Theorem llm_client_wrapper {W OpenAI : Type}
    (env : gmap string string) (createOpenAIClient : string → OpenAI)
    (JSON_parse : string → Outcome Exception json)
    (responses_create : OpenAI → Responses.Payload → W → W * Outcome Exception Chat.Response)
    (client : OpenAI) (userPrompt systemPrompt targetModel : string)
    (w w' : W) (response : Chat.Response) :
  let payload :=
    Responses.mkPayload targetModel (3, 10)
      [mkMessage "system" systemPrompt; mkMessage "user" userPrompt] in
  let call := Chat.getResponseFromOpenAI JSON_parse responses_create
                client userPrompt systemPrompt targetModel in
  (env !! "OPENAI_API_KEY" = None →
     Chat.getOpenAIClient env createOpenAIClient w
     = (w, [], Throw (Error "Missing OPENAI_API_KEY. Set it in your environment or .env file."))) ∧
  (responses_create client payload w = (w', Ok response) →
     Chat.output_text response = None ∨ Chat.output_text response = Some "" →
     call w = (w', [openai_responses_create payload],
               Throw (Error "No content received from OpenAI response."))) ∧
  (∀ text, responses_create client payload w = (w', Ok response) →
     Chat.output_text response = Some text → text ≠ "" →
     call w = (w', [openai_responses_create payload], JSON_parse text)).
Proof.
  intros payload call. split; [|split].
  - intros Hkey. unfold Chat.getOpenAIClient. by rewrite Hkey.
  - intros Hcreate Hout. unfold call, Chat.getResponseFromOpenAI.
    cbv [mbind M_bind await]. fold payload. rewrite Hcreate.
    by destruct Hout as [-> | ->].
  - intros text Hcreate Htext Hne. unfold call, Chat.getResponseFromOpenAI.
    cbv [mbind M_bind await]. fold payload. rewrite Hcreate, Htext.
    by destruct text as [|c text].
Qed.

Lemma llm_client_wrapper_witness :
  let respond : () → Responses.Payload → nat → nat * Outcome Exception Chat.Response :=
    λ _ _ n, (S n, Ok (Chat.mkResponse (if decide (n = 0)%nat then Some "[]" else None))) in
  let payload :=
    Responses.mkPayload "gpt-4o-mini" (3, 10) [mkMessage "system" "s"; mkMessage "user" "u"] in
  Chat.getOpenAIClient (W := nat) ∅ (λ _, ()) 0%nat
  = (0%nat, [], Throw (Error "Missing OPENAI_API_KEY. Set it in your environment or .env file.")) ∧
  Chat.getResponseFromOpenAI JSON_parse_literal respond () "u" "s" "gpt-4o-mini" 1%nat
  = (2%nat, [openai_responses_create payload],
     Throw (Error "No content received from OpenAI response.")) ∧
  Chat.getResponseFromOpenAI JSON_parse_literal respond () "u" "s" "gpt-4o-mini" 0%nat
  = (1%nat, [openai_responses_create payload], Ok (JArr [])).
Proof.
  intros respond payload.
  pose proof (llm_client_wrapper (W := nat) ∅ (λ _, ()) JSON_parse_literal respond ()
                "u" "s" "gpt-4o-mini" 0%nat 1%nat (Chat.mkResponse (Some "[]")))
    as (H1 & _ & H3).
  pose proof (llm_client_wrapper (W := nat) ∅ (λ _, ()) JSON_parse_literal respond ()
                "u" "s" "gpt-4o-mini" 1%nat 2%nat (Chat.mkResponse None))
    as (_ & H2 & _).
  split; [exact (H1 eq_refl)|]. split; [exact (H2 eq_refl (or_introl eq_refl))|].
  exact (H3 "[]" eq_refl eq_refl ltac:(discriminate)).
Defined.

(** ** The generation pipeline: insertion *)
Section Insertion.
Context {W SupabaseClient : Type}.
Variable briefs_insert_select_single :
  SupabaseClient → BriefRow → W → W * Outcome Exception Chat.SingleResponse.
Variable brief_user_stories_insert :
  SupabaseClient → list UserStoryRow → W → W * Outcome Exception (option Chat.PostgrestError).
Variable supabaseClient : SupabaseClient.

Lemma get_prop_ok v k : v ≠ JNull → get_prop v k = Ok (prop v k).
Proof. by destruct v. Qed.

Lemma userStoryRow_ok briefId story index (w : W) :
  story ≠ JNull →
  Chat.userStoryRow briefId story index w = (w, [], Ok (storyRow briefId index story)).
Proof.
  intros H. unfold Chat.userStoryRow. rewrite !(get_prop_ok story) by done. reflexivity.
Qed.

(** [brief.user_stories.map] builds one row per story, in order. *)
Lemma array_map_storyRows briefId stories (w : W) : ∀ index,
  Forall (λ s, s ≠ JNull) stories →
  array_map (Chat.userStoryRow briefId) index stories w
  = (w, [], Ok (imap (λ i s, storyRow briefId (index + i) s) stories)).
Proof.
  induction stories as [|s stories IH]; intros index Hall; [done|].
  apply Forall_cons in Hall as [Hs Hall].
  simpl. cbv [mbind M_bind]. rewrite (userStoryRow_ok _ _ _ _ Hs).
  fold (@array_map W json UserStoryRow). rewrite (IH (S index) Hall).
  simpl. rewrite Nat.add_0_r. do 3 f_equal.
  apply imap_ext. intros i x _. simpl. by rewrite Nat.add_succ_r.
Qed.

(** The call up to the answer of the primary insert. *)
Lemma insertBriefInDB_primary_error m embedding (w w1 : W) r e :
  briefs_insert_select_single supabaseClient (briefRow m embedding) w = (w1, Ok r) →
  Chat.error r = Some e →
  Chat.insertBriefInDB briefs_insert_select_single brief_user_stories_insert
    supabaseClient (JObj m) embedding w
  = (w1, [supabase_insert_brief (briefRow m embedding)],
     Throw (Error ("Error inserting brief into database: " +:+ Chat.message e))).
Proof.
  intros Hins He. unfold Chat.insertBriefInDB, briefRow in *.
  cbv [mbind M_bind lift get_prop await]. rewrite Hins, He. reflexivity.
Qed.

(** A rejected primary insert is rethrown as it is. *)
Lemma insertBriefInDB_primary_rejected m embedding (w w1 : W) ex :
  briefs_insert_select_single supabaseClient (briefRow m embedding) w = (w1, Throw ex) →
  Chat.insertBriefInDB briefs_insert_select_single brief_user_stories_insert
    supabaseClient (JObj m) embedding w
  = (w1, [supabase_insert_brief (briefRow m embedding)], Throw ex).
Proof.
  intros Hins. unfold Chat.insertBriefInDB, briefRow in *.
  cbv [mbind M_bind lift get_prop await]. rewrite Hins. reflexivity.
Qed.

(** The call after a successful primary insert, when the brief has user
    stories. *)
Lemma insertBriefInDB_stories m embedding stories (w w1 w2 : W) r res :
  let rows := imap (storyRow (prop (Chat.data r) "id")) stories in
  briefs_insert_select_single supabaseClient (briefRow m embedding) w = (w1, Ok r) →
  Chat.error r = None →
  Chat.data r ≠ JNull →
  m !! "user_stories" = Some (JArr stories) →
  Forall (λ s, s ≠ JNull) stories →
  brief_user_stories_insert supabaseClient rows w1 = (w2, res) →
  Chat.insertBriefInDB briefs_insert_select_single brief_user_stories_insert
    supabaseClient (JObj m) embedding w
  = (w2,
     [supabase_insert_brief (briefRow m embedding); supabase_insert_user_stories rows]
     ++ match res with
        | Ok None => [console_log [AStr "Brief inserted into database with ID:";
                                   AValue (prop (Chat.data r) "id")]]
        | _ => []
        end,
     match res with
     | Ok None => Ok {| Chat.brief := Chat.data r;
                        Chat.userStoriesInserted := length stories |}
     | Ok (Some e) =>
         Throw (Error ("Error inserting brief user stories into database: "
                       +:+ Chat.message e))
     | Throw e => Throw e
     end).
Proof.
  intros rows Hins He Hd Hus Hall Hins2.
  unfold Chat.insertBriefInDB, briefRow in *.
  cbv [mbind M_bind lift await]. cbn [get_prop]. rewrite Hins, He.
  rewrite (get_prop_ok _ "id" Hd), Hus. cbn [Chat.user_stories_map].
  rewrite (array_map_storyRows _ _ _ 0%nat Hall).
  change (imap (λ i s, storyRow (prop (Chat.data r) "id") (0 + i) s) stories) with rows.
  rewrite Hins2.
  destruct res as [[e'|]|e']; simpl; try done.
  unfold rows. by rewrite length_imap.
Qed.

(** Without user stories the call throws after the primary insert. *)
Lemma insertBriefInDB_no_stories m embedding (w w1 : W) r :
  briefs_insert_select_single supabaseClient (briefRow m embedding) w = (w1, Ok r) →
  Chat.error r = None →
  Chat.data r ≠ JNull →
  m !! "user_stories" = None →
  Chat.insertBriefInDB briefs_insert_select_single brief_user_stories_insert
    supabaseClient (JObj m) embedding w
  = (w1, [supabase_insert_brief (briefRow m embedding)],
     Throw (TypeError "Cannot read properties of undefined (reading 'map')")).
Proof.
  intros Hins He Hd Hus.
  unfold Chat.insertBriefInDB, briefRow in *.
  cbv [mbind M_bind lift await]. cbn [get_prop]. rewrite Hins, He.
  rewrite (get_prop_ok _ "id" Hd), Hus. reflexivity.
Qed.

End Insertion.

(** C4: when the insert into table [briefs] answers with an error,
    [insertBriefInDB] throws and has made no call that inserts user
    stories; when that insert succeeds and the insert of the user stories
    answers with an error, [insertBriefInDB] throws after these two calls and
    makes no further call: the datastore stays as the two inserts left it. *)
Theorem insert_failures {W SupabaseClient : Type}
    (briefs_insert_select_single :
       SupabaseClient → BriefRow → W → W * Outcome Exception Chat.SingleResponse)
    (brief_user_stories_insert :
       SupabaseClient → list UserStoryRow → W → W * Outcome Exception (option Chat.PostgrestError))
    (supabaseClient : SupabaseClient)
    (m : gmap string json) (embedding : list Z) (w w1 : W) (r : Chat.SingleResponse) :
  let call := Chat.insertBriefInDB briefs_insert_select_single brief_user_stories_insert
                supabaseClient (JObj m) embedding in
  let row := briefRow m embedding in
  briefs_insert_select_single supabaseClient row w = (w1, Ok r) →
  (∀ e, Chat.error r = Some e →
     call w = (w1, [supabase_insert_brief row],
               Throw (Error ("Error inserting brief into database: " +:+ Chat.message e)))) ∧
  (∀ stories w2 e,
     let rows := imap (storyRow (prop (Chat.data r) "id")) stories in
     Chat.error r = None →
     Chat.data r ≠ JNull →
     m !! "user_stories" = Some (JArr stories) →
     Forall (λ s, s ≠ JNull) stories →
     brief_user_stories_insert supabaseClient rows w1 = (w2, Ok (Some e)) →
     call w = (w2, [supabase_insert_brief row; supabase_insert_user_stories rows],
               Throw (Error ("Error inserting brief user stories into database: "
                             +:+ Chat.message e)))).
Proof.
  intros call row Hins. split.
  - intros e He. by apply insertBriefInDB_primary_error with (r := r).
  - intros stories w2 e rows He Hd Hus Hall Hins2.
    unfold call.
    by rewrite (insertBriefInDB_stories _ _ _ m embedding stories w w1 w2 r _
                  Hins He Hd Hus Hall Hins2).
Qed.

Lemma insert_failures_witness :
  let m := brief_with_user_stories in
  let down1 := MemoryStore.mkStore [] [] (Some "briefs unavailable") None in
  let down2 := MemoryStore.mkStore [] [] None (Some "stories unavailable") in
  MemoryStore.insertBriefInDB (JObj m) [] down1
  = (down1, [supabase_insert_brief (briefRow m [])],
     Throw (Error "Error inserting brief into database: briefs unavailable")) ∧
  ∃ rows,
    MemoryStore.insertBriefInDB (JObj m) [] down2
    = (MemoryStore.mkStore [(1, briefRow m [])] [] None (Some "stories unavailable"),
       [supabase_insert_brief (briefRow m []); supabase_insert_user_stories rows],
       Throw (Error "Error inserting brief user stories into database: stories unavailable")).
Proof.
  intros m down1 down2. split.
  - refine (proj1 (insert_failures MemoryStore.briefs_insert_select_single
                     MemoryStore.brief_user_stories_insert () m [] down1 down1
                     {| Chat.data := JNull;
                        Chat.error := Some (Chat.mkPostgrestError "briefs unavailable") |}
                     eq_refl) _ eq_refl).
  - eexists.
    refine (proj2 (insert_failures MemoryStore.briefs_insert_select_single
                     MemoryStore.brief_user_stories_insert () m [] down2 _
                     {| Chat.data := MemoryStore.row_json 1 (briefRow m []);
                        Chat.error := None |}
                     eq_refl) _ _ (Chat.mkPostgrestError "stories unavailable")
                  eq_refl _ eq_refl _ eq_refl).
    + discriminate.
    + repeat constructor; discriminate.
Defined.

(** C10: when the primary insert succeeds, [insertBriefInDB] sends to table
    [brief_user_stories] exactly one row per element of
    [brief.user_stories], in the same order; the row of the element at
    1-based position [i + 1] has [story_order = i + 1] and carries as
    [brief_id] the identifier of the primary row; and the summary that is
    returned when the second insert succeeds counts
    [length brief.user_stories] stories. *)
Theorem user_story_rows {W SupabaseClient : Type}
    (briefs_insert_select_single :
       SupabaseClient → BriefRow → W → W * Outcome Exception Chat.SingleResponse)
    (brief_user_stories_insert :
       SupabaseClient → list UserStoryRow → W → W * Outcome Exception (option Chat.PostgrestError))
    (supabaseClient : SupabaseClient)
    (m : gmap string json) (embedding : list Z) (stories : list json)
    (w w1 : W) (r : Chat.SingleResponse) :
  let call := Chat.insertBriefInDB briefs_insert_select_single brief_user_stories_insert
                supabaseClient (JObj m) embedding in
  let briefId := prop (Chat.data r) "id" in
  briefs_insert_select_single supabaseClient (briefRow m embedding) w = (w1, Ok r) →
  Chat.error r = None →
  Chat.data r ≠ JNull →
  m !! "user_stories" = Some (JArr stories) →
  Forall (λ s, s ≠ JNull) stories →
  ∃ rows w2 trace outcome,
    call w = (w2, supabase_insert_brief (briefRow m embedding)
                  :: supabase_insert_user_stories rows :: trace, outcome) ∧
    length rows = length stories ∧
    (∀ i story, stories !! i = Some story →
       ∃ row, rows !! i = Some row ∧ row = storyRow briefId i story ∧
              story_order row = (i + 1)%nat ∧ brief_id row = briefId) ∧
    (brief_user_stories_insert supabaseClient rows w1 = (w2, Ok None) →
       outcome = Ok {| Chat.brief := Chat.data r;
                       Chat.userStoriesInserted := length stories |}).
Proof.
  intros call briefId Hins He Hd Hus Hall.
  set (rows := imap (storyRow briefId) stories).
  destruct (brief_user_stories_insert supabaseClient rows w1) as [w2 res] eqn:Hins2.
  exists rows, w2. eexists. eexists. split; [|split; [|split]].
  - unfold call.
    rewrite (insertBriefInDB_stories _ _ _ m embedding stories w w1 w2 r res
               Hins He Hd Hus Hall Hins2).
    reflexivity.
  - apply length_imap.
  - intros i story Hi. exists (storyRow briefId i story).
    unfold rows. rewrite list_lookup_imap, Hi. done.
  - intros Hres. rewrite Hins2 in Hres. by injection Hres as ->.
Qed.

Lemma user_story_rows_witness :
  let m := brief_with_user_stories in
  let briefId := Some (JNum 1) in
  ∃ rows w2 trace outcome,
    MemoryStore.insertBriefInDB (JObj m) [] MemoryStore.empty
    = (w2, supabase_insert_brief (briefRow m [])
           :: supabase_insert_user_stories rows :: trace, outcome) ∧
    length rows = length example_user_stories ∧
    (∀ i story, example_user_stories !! i = Some story →
       ∃ row, rows !! i = Some row ∧ row = storyRow briefId i story ∧
              story_order row = (i + 1)%nat ∧ brief_id row = briefId) ∧
    (MemoryStore.brief_user_stories_insert () rows
       (MemoryStore.mkStore [(1, briefRow m [])] [] None None) = (w2, Ok None) →
     outcome = Ok {| Chat.brief := MemoryStore.row_json 1 (briefRow m []);
                     Chat.userStoriesInserted := length example_user_stories |}).
Proof.
  intros m briefId.
  apply (user_story_rows MemoryStore.briefs_insert_select_single
           MemoryStore.brief_user_stories_insert () m [] example_user_stories
           MemoryStore.empty (MemoryStore.mkStore [(1, briefRow m [])] [] None None)
           {| Chat.data := MemoryStore.row_json 1 (briefRow m []); Chat.error := None |}).
  - reflexivity.
  - reflexivity.
  - discriminate.
  - vm_compute. reflexivity.
  - repeat constructor; discriminate.
Defined.

(** ** Validated briefs and user stories *)
Section UserStories.
Import Zod.

Lemma parsed_keys_in_shape shape p m (i : string) :
  i ∉ shape.*1 →
  i ∉ (omap (λ kr : string * ParseReturn, (kr.1,.) <$> value_of kr.2)
         (parse_fields p m shape)).*1.
Proof.
  unfold parse_fields. induction shape as [|[k fs] rest IH]; intros Hi.
  - simpl. apply not_elem_of_nil.
  - simpl in *. apply not_elem_of_cons in Hi as [Hne Hi].
    destruct (parse fs (p ++ [PKey k]) (m !! k)); simpl; [|by apply IH].
    apply not_elem_of_cons. split; [done | by apply IH].
Qed.

(** The validated value of an object schema has no property outside the
    shape. *)
Lemma parse_object_strips shape p v d (i : string) :
  parse (ZObject shape) p v = inl d → i ∉ shape.*1 →
  ∃ m', d = JObj m' ∧ m' !! i = None.
Proof.
  intros Hp Hi. destruct v as [[| | | | |m]|]; try discriminate Hp.
  rewrite parse_object_eq in Hp. unfold merge_object in Hp.
  destruct (concat _); [|discriminate Hp]. injection Hp as <-.
  eexists. split; [done|].
  by apply not_elem_of_list_to_map_1, parsed_keys_in_shape.
Qed.

(** No value validated by the schema of [validateDataset.ts] has a
    [user_stories] property. *)
Lemma validated_brief_lacks_user_stories v d :
  safeParse briefSchema v = Success d → get_prop d "user_stories" = Ok None.
Proof.
  unfold safeParse. destruct (parse briefSchema [] (Some v)) as [d'|] eqn:E; [|done].
  intros [= <-].
  destruct (parse_object_strips brief_shape [] (Some v) d' "user_stories" E)
    as (m' & -> & Hm').
  - rewrite brief_shape_keys. unfold required_fields.
    rewrite !not_elem_of_cons. repeat split; try discriminate. apply not_elem_of_nil.
  - simpl. by rewrite Hm'.
Qed.

End UserStories.

(** ** The streaming entry point *)
Section Streaming.
Import Stream.

Example buildUserPrompt_head :
  String.substring 0 31 (buildUserPrompt main_request) = "Generate 3 project briefs for :".
Proof. vm_compute. reflexivity. Qed.

Example JSON_stringify_stack :
  JSON_stringify_strings (stack main_request)
  = "[" +:+ dquote +:+ "React" +:+ dquote +:+ "," +:+ dquote +:+ "TypeScript" +:+ dquote
    +:+ "," +:+ dquote +:+ "TailwindCSS" +:+ dquote +:+ "]".
Proof. vm_compute. reflexivity. Qed.

(** The [for await] loop writes the non-empty fragments in order. *)
Lemma foldl_on_chunk l : ∀ b o,
  foldl on_chunk (b, o) l
  = (b || negb (bool_decide (fragments l = [])), o ++ (stdout_write <$> fragments l)).
Proof.
  induction l as [|c l IH]; intros b o.
  - simpl. by rewrite orb_false_r, app_nil_r.
  - simpl. unfold on_chunk at 2, fragments. simpl.
    destruct (chunk_content c) as [[|a x]|]; simpl; rewrite IH; try done.
    rewrite orb_true_r, <- app_assoc. reflexivity.
Qed.

Lemma requests_stdout_write l : requests (stdout_write <$> l) = [].
Proof. induction l; simpl; auto. Qed.

Lemma written_stdout_write l : written (stdout_write <$> l) = l.
Proof. induction l as [|x l IH]; simpl; [done|]. f_equal. exact IH. Qed.

Lemma main_quiet process create : Forall quiet (main process create).1.
Proof.
  unfold main. destruct (truthy _); simpl; [|by repeat constructor].
  destruct (create _ _) as [stream|e]; [|by repeat constructor].
  rewrite foldl_on_chunk.
  assert (Hw : Forall quiet (stdout_write <$> fragments (chunks stream))).
  { apply Forall_fmap, Forall_true. by intros x. }
  destruct (failure stream); simpl.
  - repeat constructor. done.
  - repeat constructor. apply Forall_app. split; [done|].
    destruct (bool_decide _); by repeat constructor.
Qed.

End Streaming.

(** C8 (as stated, refuted): with command-line arguments that ask for a
    senior HealthTech backend brief, the streaming entry point sends the same
    request as without arguments, and its user prompt is not the one built
    from the arguments. *)
Lemma streaming_ignores_cli_arguments :
  let env : gmap string string := {["OPENAI_API_KEY" := "sk-test"]} in
  let create := λ (_ : option string) (_ : ChatCompletions.Payload),
                  Ok (Stream.mkChatStream [] None) : Outcome Exception Stream.ChatStream in
  Stream.main (Stream.mkProcess Stream.other_argv env) create
  = Stream.main (Stream.mkProcess [] env) create ∧
  Stream.requests (Stream.main (Stream.mkProcess Stream.other_argv env) create).1
  = [Stream.main_payload] ∧
  Stream.buildUserPrompt Stream.main_request ≠ Stream.buildUserPrompt Stream.other_request.
Proof.
  intros env create. split; [reflexivity|]. split; [vm_compute; reflexivity|].
  intros H. apply (f_equal (String.get 9)) in H. vm_compute in H. discriminate H.
Qed.

(** C8 (amended): the streaming entry point uses a fixed generation request
    (junior, FinTech, frontend, React/TypeScript/TailwindCSS, 2 weeks, 3
    briefs) whatever the command-line arguments are, builds the prompt from
    it, makes one streamed LLM call and writes the non-empty streamed
    fragments to standard output in order; no run of it validates or stores
    anything. *)
Theorem streaming_entry_point (process : Stream.Process)
    (create : option string → ChatCompletions.Payload → Outcome Exception Stream.ChatStream)
    (stream : Stream.ChatStream) :
  truthy (Stream.env process !! "OPENAI_API_KEY") = true →
  create (Stream.env process !! "OPENAI_API_KEY") Stream.main_payload = Ok stream →
  Stream.failure stream = None →
  let o := (Stream.main process create).1 in
  Stream.main process create
  = ([openai_chat_completions_create Stream.main_payload;
      console_log [AStr ("--- streaming start ---" +:+ nl)]]
     ++ (stdout_write <$> Stream.fragments (Stream.chunks stream))
     ++ (if bool_decide (Stream.fragments (Stream.chunks stream) = [])
         then [console_error [AStr (nl +:+ "(No streamed content received)")]]
         else [])
     ++ [console_log [AStr (nl +:+ nl +:+ "--- streaming end ---")]],
     Ok ()) ∧
  Stream.requests o = [Stream.main_payload] ∧
  Stream.written o = Stream.fragments (Stream.chunks stream) ∧
  Forall (λ e, is_validation e = false ∧ is_storage e = false) o.
Proof.
  intros Hkey Hcreate Hfail o.
  assert (Hmain : Stream.main process create
    = ([openai_chat_completions_create Stream.main_payload;
        console_log [AStr ("--- streaming start ---" +:+ nl)]]
       ++ (stdout_write <$> Stream.fragments (Stream.chunks stream))
       ++ (if bool_decide (Stream.fragments (Stream.chunks stream) = [])
           then [console_error [AStr (nl +:+ "(No streamed content received)")]]
           else [])
       ++ [console_log [AStr (nl +:+ nl +:+ "--- streaming end ---")]],
       Ok ())).
  { unfold Stream.main. rewrite Hkey. cbn [negb].
    change (ChatCompletions.mkPayload _ _ _ _) with Stream.main_payload.
    rewrite Hcreate, foldl_on_chunk, Hfail. cbn [orb negb].
    rewrite negb_involutive, <- app_assoc. reflexivity. }
  split; [exact Hmain|]. split; [|split].
  - unfold o. rewrite Hmain. cbn [fst].
    unfold Stream.requests. rewrite !omap_app. fold Stream.requests.
    rewrite requests_stdout_write. by destruct (bool_decide _).
  - unfold o. rewrite Hmain. cbn [fst].
    unfold Stream.written. rewrite !omap_app. fold Stream.written.
    rewrite written_stdout_write.
    destruct (bool_decide _); simpl; by rewrite app_nil_r.
  - apply main_quiet.
Qed.

Lemma streaming_entry_point_witness :
  let process := Stream.mkProcess Stream.other_argv {["OPENAI_API_KEY" := "sk-test"]} in
  let hello := Stream.mkChunk (Some [Stream.mkChoice (Some (Stream.mkDelta (Some "[{")))]) in
  let blank := Stream.mkChunk (Some [Stream.mkChoice (Some (Stream.mkDelta (Some "")))]) in
  let stop := Stream.mkChunk (Some [Stream.mkChoice None]) in
  let create := λ (_ : option string) (_ : ChatCompletions.Payload),
                  Ok (Stream.mkChatStream [hello; blank; stop] None)
                  : Outcome Exception Stream.ChatStream in
  Stream.requests (Stream.main process create).1 = [Stream.main_payload] ∧
  Stream.written (Stream.main process create).1 = ["[{"].
Proof.
  intros process hello blank stop create.
  destruct (streaming_entry_point process create
              (Stream.mkChatStream [hello; blank; stop] None) eq_refl eq_refl eq_refl)
    as (_ & Hreq & Hwr & _).
  split; [exact Hreq | exact Hwr].
Defined.

(** * Further properties of the code *)

(** ** The brief schema: acceptance *)
Section SchemaAcceptance.
Import Zod.

(** A failed parse has at least one issue. *)
Lemma parse_failure_nonempty s p v iss : parse s p v = inr iss → iss ≠ [].
Proof.
  destruct s as [|values|elem n|shape]; simpl.
  - destruct v as [[]|]; intros [= <-]; discriminate.
  - destruct v as [[| | |x| |]|]; try (intros [= <-]; discriminate).
    destruct (bool_decide _); intros [= <-]; discriminate.
  - destruct v as [[| | | |l|]|]; try (intros [= <-]; discriminate).
    unfold merge_array. destruct (_ ++ _); intros [= <-]. discriminate.
  - destruct v as [[| | | | |m]|]; try (intros [= <-]; discriminate).
    unfold merge_object. destruct (concat _); intros [= <-]. discriminate.
Qed.

Lemma parse_no_issue_valid s p v :
  issues_of (parse s p v) = [] → ∃ x, parse s p v = inl x.
Proof.
  destruct (parse s p v) as [x|iss] eqn:E; [eauto|].
  simpl. intros ->. by destruct (parse_failure_nonempty _ _ _ _ E).
Qed.

Lemma concat_fmap_nil {A B} (f : A → list B) (l : list A) x :
  concat (f <$> l) = [] → x ∈ l → f x = [].
Proof.
  induction l as [|y l IH]; simpl; [by intros _ ?%not_elem_of_nil|].
  intros [Hy Hl]%app_eq_nil [->|Hx]%elem_of_cons; auto.
Qed.

(** A valid object has no issue at any field of the shape. *)
Lemma parse_object_valid_fields shape p m d k fs :
  parse (ZObject shape) p (Some (JObj m)) = inl d → (k, fs) ∈ shape →
  ∃ x, parse fs (p ++ [PKey k]) (m !! k) = inl x.
Proof.
  rewrite parse_object_eq. unfold merge_object.
  destruct (concat _) eqn:E; [|discriminate]. intros _ Hin.
  apply parse_no_issue_valid.
  apply (concat_fmap_nil (λ kr : string * ParseReturn, issues_of kr.2) _
           (k, parse fs (p ++ [PKey k]) (m !! k)) E).
  unfold parse_fields. apply list_elem_of_fmap. by exists (k, fs).
Qed.

Lemma parse_string_valid p v x : parse ZString p v = inl x → is_string v = true.
Proof. by destruct v as [[]|]. Qed.

Lemma parse_enum_valid values p v x :
  parse (ZEnum values) p v = inl x → in_enum values v = true.
Proof.
  destruct v as [[| | |y| |]|]; try done. simpl.
  by destruct (bool_decide (y ∈ values)).
Qed.

Lemma imap_parse_strings_valid (g : nat → list PathSeg) l :
  concat (issues_of <$> imap (λ i x, parse ZString (g i) (Some x)) l) = [] →
  forallb (λ y, is_string (Some y)) l = true.
Proof.
  revert g. induction l as [|x l IH]; intros g; [done|].
  simpl. intros [Hx Hl]%app_eq_nil. apply andb_true_iff. split.
  - by destruct x.
  - exact (IH (g ∘ S) Hl).
Qed.

Lemma parse_string_array_valid p v x :
  parse (ZArray ZString 1) p v = inl x → is_nonempty_string_array v = true.
Proof.
  destruct v as [[| | | |l|]|]; try done.
  change (parse (ZArray ZString 1) p (Some (JArr l)))
    with (merge_array
            (if bool_decide (length l < 1)%nat then [mkIssue (too_small 1) p] else [])
            (imap (λ i x, parse ZString (p ++ [PIdx i]) (Some x)) l)).
  unfold merge_array. destruct (_ ++ _) eqn:E; [|discriminate]. intros _.
  apply app_eq_nil in E as [Hown Hel].
  apply (imap_parse_strings_valid (λ i, p ++ [PIdx i])) in Hel.
  destruct l as [|y l]; [discriminate Hown|]. exact Hel.
Qed.

(** What [briefSchema] asks of each of its fields. *)
Lemma brief_field_valid f fs p v x :
  (f, fs) ∈ brief_shape → parse fs p v = inl x → field_conforms f v = true.
Proof.
  unfold brief_shape, briefSchema. intros Hin Hp.
  repeat (apply elem_of_cons in Hin as [Hin|Hin];
          [injection Hin as -> ->; vm_compute field_conforms;
           first [exact (parse_enum_valid _ _ _ _ Hp)
                 | exact (parse_string_valid _ _ _ Hp)
                 | exact (parse_string_array_valid _ _ _ Hp)]|]).
  by apply not_elem_of_nil in Hin.
Qed.

Lemma well_formed_iff_fields m :
  well_formed_brief m = true ↔ ∀ f, f ∈ required_fields → field_conforms f (m !! f) = true.
Proof.
  split.
  - unfold well_formed_brief. rewrite !andb_true_iff.
    intros [[[[[[[[[[[[H1 H2] H3] H4] H5] H6] H7] H8] H9] H10] H11] H12] H13] f Hf.
    unfold required_fields in Hf.
    repeat (apply elem_of_cons in Hf as [->|Hf]; [assumption|]).
    by apply not_elem_of_nil in Hf.
  - intros H. unfold well_formed_brief. rewrite !andb_true_iff.
    repeat split;
      match goal with
      | |- _ (m !! ?f) = true => apply (H f); unfold required_fields; repeat constructor
      end.
Qed.

End SchemaAcceptance.

(** What an accepted value looks like. *)
Lemma safeParse_success_inv (v d : json) :
  Zod.safeParse briefSchema v = Zod.Success d →
  ∃ m, v = JObj m ∧ well_formed_brief m = true ∧ d = JObj (strip_unknown m).
Proof.
  unfold Zod.safeParse.
  destruct (Zod.parse briefSchema [] (Some v)) as [d'|] eqn:E; [intros [= <-]|done].
  destruct v as [| | | | |m]; try discriminate E.
  exists m. split; [done|].
  assert (Hwf : well_formed_brief m = true).
  { apply well_formed_iff_fields. intros f Hf.
    rewrite <- brief_shape_keys in Hf.
    apply list_elem_of_fmap in Hf as ([k fs] & -> & Hin).
    destruct (parse_object_valid_fields brief_shape [] m d' k fs E Hin) as [x Hx].
    exact (brief_field_valid k fs _ _ x Hin Hx). }
  split; [done|].
  change briefSchema with (Zod.ZObject brief_shape) in E.
  rewrite (parse_object_valid brief_shape [] m (well_formed_fields m Hwf)) in E.
  by injection E as <-.
Qed.

(** X1: [briefSchema] accepts exactly the objects that conform to it:
    [safeParse] succeeds on a parsed JSON value if and only if the value is an
    object whose thirteen fields are present, of the right type, in their
    closed sets and non-empty. *)
Theorem safeParse_accepts_iff_well_formed (v : json) :
  Zod.success (Zod.safeParse briefSchema v) = true
  ↔ ∃ m, v = JObj m ∧ well_formed_brief m = true.
Proof.
  split.
  - destruct (Zod.safeParse briefSchema v) as [d|] eqn:E; [intros _|done].
    destruct (safeParse_success_inv v d E) as (m & -> & Hwf & _). eauto.
  - intros (m & -> & Hwf). unfold Zod.safeParse.
    change briefSchema with (Zod.ZObject brief_shape).
    by rewrite (parse_object_valid brief_shape [] m (well_formed_fields m Hwf)).
Qed.

(** ** The brief schema: unknown keys and issues *)
Section SchemaIssues.
Import Zod.

(** The result of parsing an object depends only on the keys of the shape. *)
Lemma parse_object_agree shape p (m1 m2 : gmap string json) :
  (∀ k, k ∈ shape.*1 → m1 !! k = m2 !! k) →
  parse (ZObject shape) p (Some (JObj m1)) = parse (ZObject shape) p (Some (JObj m2)).
Proof.
  intros H. rewrite !parse_object_eq. f_equal. unfold parse_fields.
  apply Forall_fmap_ext, Forall_forall. intros [k fs] Hin. simpl.
  rewrite (H k); [done|]. apply list_elem_of_fmap. by exists (k, fs).
Qed.

Lemma strip_unknown_lookup m k :
  k ∈ required_fields → strip_unknown m !! k = m !! k.
Proof.
  intros Hk. unfold strip_unknown. rewrite map_lookup_filter.
  destruct (m !! k); simpl; [|done]. by rewrite option_guard_True.
Qed.

(** Where the issues of a field of the brief are located. *)
Lemma string_issue_path p v i :
  i ∈ issues_of (parse ZString p v) → path i = p.
Proof.
  destruct v as [[]|]; simpl;
    intros H; try (by apply not_elem_of_nil in H);
    by apply list_elem_of_singleton in H as ->.
Qed.

Lemma enum_issue_path values p v i :
  i ∈ issues_of (parse (ZEnum values) p v) → path i = p.
Proof.
  destruct v as [[| | |y| |]|]; simpl; try destruct (bool_decide (y ∈ values)); simpl;
    intros H; try (by apply not_elem_of_nil in H);
    by apply list_elem_of_singleton in H as ->.
Qed.

Lemma imap_string_issue_path (g : nat → list PathSeg) l i :
  i ∈ concat (issues_of <$> imap (λ n x, parse ZString (g n) (Some x)) l) →
  ∃ n x, l !! n = Some x ∧ is_string (Some x) = false ∧ path i = g n.
Proof.
  revert g. induction l as [|x l IH]; intros g; simpl.
  - by intros ?%not_elem_of_nil.
  - intros [H|H]%elem_of_app.
    + exists 0%nat, x. split; [done|].
      destruct x; simpl in H; try (by apply not_elem_of_nil in H);
        by apply list_elem_of_singleton in H as ->.
    + destruct (IH (g ∘ S) H) as (n & y & Hn & Hy & Hp). by exists (S n), y.
Qed.

Lemma string_array_issue_path p v i :
  i ∈ issues_of (parse (ZArray ZString 1) p v) →
  path i = p ∨ ∃ n, path i = p ++ [PIdx n].
Proof.
  destruct v as [[| | | |l|]|];
    try (simpl; intros H; left; by apply list_elem_of_singleton in H as ->).
  change (parse (ZArray ZString 1) p (Some (JArr l)))
    with (merge_array
            (if bool_decide (length l < 1)%nat then [mkIssue (too_small 1) p] else [])
            (imap (λ i x, parse ZString (p ++ [PIdx i]) (Some x)) l)).
  unfold merge_array. destruct (_ ++ _) as [|i0 iss] eqn:E.
  - by intros ?%not_elem_of_nil.
  - simpl. rewrite <- E. intros [H|H]%elem_of_app.
    + left. destruct (bool_decide _); [|by apply not_elem_of_nil in H].
      by apply list_elem_of_singleton in H as ->.
    + right. destruct (imap_string_issue_path (λ n, p ++ [PIdx n]) l i H)
        as (n & _ & _ & _ & Hp). eauto.
Qed.

Lemma brief_field_issue_located f fs v i :
  (f, fs) ∈ brief_shape → i ∈ issues_of (parse fs [PKey f] v) → located_at i f.
Proof.
  unfold brief_shape, briefSchema, located_at. intros Hin Hi.
  repeat (apply elem_of_cons in Hin as [Hin|Hin];
          [injection Hin as -> ->;
           first [left; exact (enum_issue_path _ _ _ _ Hi)
                 | left; exact (string_issue_path _ _ _ Hi)
                 | exact (string_array_issue_path _ _ _ Hi)]|]).
  by apply not_elem_of_nil in Hin.
Qed.

(** The issues of an object are those of the fields of its shape. *)
Lemma parse_object_issue_inv shape p m i :
  i ∈ issues_of (parse (ZObject shape) p (Some (JObj m))) →
  ∃ k fs, (k, fs) ∈ shape ∧ i ∈ issues_of (parse fs (p ++ [PKey k]) (m !! k)).
Proof.
  rewrite parse_object_eq. unfold merge_object.
  destruct (concat _) as [|i0 iss] eqn:E; simpl; [by intros ?%not_elem_of_nil|].
  rewrite <- E. intros H.
  apply list_elem_of_In, in_concat in H as (is0 & Hin & Hi).
  apply list_elem_of_In, list_elem_of_fmap in Hin as ([k r] & -> & Hkr).
  unfold parse_fields in Hkr. apply list_elem_of_fmap in Hkr as ([k' fs] & [= -> ->] & Hsh).
  exists k', fs. split; [done|]. by apply list_elem_of_In.
Qed.

Lemma brief_field_nonconforming f fs p v :
  (f, fs) ∈ brief_shape → field_conforms f v = false →
  ∃ i, i ∈ issues_of (parse fs p v).
Proof.
  intros Hin Hc. destruct (parse fs p v) as [x|iss] eqn:E.
  - rewrite (brief_field_valid f fs p v x Hin E) in Hc. discriminate.
  - destruct iss as [|i iss]; [by destruct (parse_failure_nonempty _ _ _ _ E)|].
    exists i. by left.
Qed.

Lemma merge_array_issue own rs i :
  i ∈ own ++ concat (issues_of <$> rs) → i ∈ issues_of (merge_array own rs).
Proof.
  unfold merge_array. generalize (own ++ concat (issues_of <$> rs)).
  intros [|i0 iss] H; [by apply not_elem_of_nil in H | exact H].
Qed.

(** A non-string element of an array field has an issue at its index. *)
Lemma string_array_bad_element p l n x :
  l !! n = Some x → is_string (Some x) = false →
  ∃ i, i ∈ issues_of (parse (ZArray ZString 1) p (Some (JArr l))) ∧ path i = p ++ [PIdx n].
Proof.
  intros Hn Hx.
  change (parse (ZArray ZString 1) p (Some (JArr l)))
    with (merge_array
            (if bool_decide (length l < 1)%nat then [mkIssue (too_small 1) p] else [])
            (imap (λ i x, parse ZString (p ++ [PIdx i]) (Some x)) l)).
  set (i := mkIssue (invalid_type (ExpType TString) (getParsedType (Some x))) (p ++ [PIdx n])).
  assert (Hi : i ∈ concat (issues_of <$> imap (λ i x, parse ZString (p ++ [PIdx i]) (Some x)) l)).
  { apply list_elem_of_In, in_concat. exists [i]. split; [|by left].
    apply list_elem_of_In, list_elem_of_fmap.
    exists (parse ZString (p ++ [PIdx n]) (Some x)). split.
    - by destruct x.
    - apply list_elem_of_lookup. exists n. by rewrite list_lookup_imap, Hn. }
  exists i. split; [|done]. apply merge_array_issue, elem_of_app. by right.
Qed.

End SchemaIssues.

(** X2: validation looks only at the thirteen fields of the schema: two
    objects that agree on these fields get the same result, whatever other
    keys they have. *)
Theorem safeParse_depends_on_schema_fields (m1 m2 : gmap string json) :
  (∀ f, f ∈ required_fields → m1 !! f = m2 !! f) →
  Zod.safeParse briefSchema (JObj m1) = Zod.safeParse briefSchema (JObj m2).
Proof.
  intros H. unfold Zod.safeParse. change briefSchema with (Zod.ZObject brief_shape).
  by rewrite (parse_object_agree brief_shape [] m1 m2 H).
Qed.

Lemma safeParse_depends_on_schema_fields_witness :
  Zod.safeParse briefSchema (JObj brief_with_user_stories)
  = Zod.safeParse briefSchema (JObj example_brief).
Proof.
  apply (safeParse_depends_on_schema_fields brief_with_user_stories example_brief).
  intros f Hf. unfold brief_with_user_stories. apply lookup_insert_ne.
  intros <-. vm_compute in Hf.
  repeat (apply elem_of_cons in Hf as [Hf|Hf]; [discriminate Hf|]).
  by apply not_elem_of_nil in Hf.
Defined.

(** X3: validation is idempotent: a value that [safeParse] returns is itself
    accepted by the schema and returned unchanged. *)
Theorem safeParse_idempotent (v d : json) :
  Zod.safeParse briefSchema v = Zod.Success d →
  Zod.safeParse briefSchema d = Zod.Success d.
Proof.
  intros Hv.
  destruct (safeParse_success_inv v d Hv) as (m & -> & Hwf & ->).
  rewrite <- Hv. unfold Zod.safeParse. change briefSchema with (Zod.ZObject brief_shape).
  rewrite (parse_object_agree brief_shape [] (strip_unknown m) m); [done|].
  intros k Hk. apply strip_unknown_lookup. by rewrite <- brief_shape_keys.
Qed.

Lemma safeParse_idempotent_witness :
  Zod.safeParse briefSchema (JObj example_brief) = Zod.Success (JObj example_brief).
Proof.
  apply (safeParse_idempotent (JObj brief_with_user_stories) (JObj example_brief)).
  vm_compute. reflexivity.
Defined.

(** X4: a failed validation always carries at least one issue, and every
    issue is located at one of the thirteen fields of the schema or at an
    element of an array held by one of them; when the value is not an object
    the only issue is at the root. *)
Theorem safeParse_issues_located (v : json) (e : Zod.ZodError) :
  Zod.safeParse briefSchema v = Zod.Failure e →
  Zod.issues e ≠ [] ∧
  ((∃ m, v = JObj m) →
     ∀ i, i ∈ Zod.issues e → ∃ f, f ∈ required_fields ∧ located_at i f) ∧
  ((∀ m, v ≠ JObj m) →
     Zod.issues e
     = [Zod.mkIssue (Zod.invalid_type (Zod.ExpType Zod.TObject) (Zod.getParsedType (Some v))) []]).
Proof.
  unfold Zod.safeParse.
  destruct (Zod.parse briefSchema [] (Some v)) as [d|iss] eqn:E; [done|].
  intros [= <-]. simpl. split; [exact (parse_failure_nonempty _ _ _ _ E)|]. split.
  - intros [m ->] i Hi.
    assert (Hi' : i ∈ Zod.issues_of (Zod.parse (Zod.ZObject brief_shape) [] (Some (JObj m)))).
    { change (Zod.ZObject brief_shape) with briefSchema. by rewrite E. }
    apply parse_object_issue_inv in Hi' as (k & fs & Hin & Hk).
    exists k. split.
    + rewrite <- brief_shape_keys. apply list_elem_of_fmap. by exists (k, fs).
    + exact (brief_field_issue_located k fs _ i Hin Hk).
  - intros Hv. destruct v; try (by injection E as <-). by destruct (Hv m).
Qed.

Lemma safeParse_issues_located_witness :
  ∃ e, Zod.safeParse briefSchema (JObj (<["stack" := JArr [JStr "Go"; JNum 7]]> example_brief))
       = Zod.Failure e ∧
       Zod.issues e ≠ [] ∧
       ∀ i, i ∈ Zod.issues e → ∃ f, f ∈ required_fields ∧ located_at i f.
Proof.
  eexists. split; [vm_compute; reflexivity|].
  match goal with
  | |- Zod.issues ?e ≠ [] ∧ _ =>
      destruct (safeParse_issues_located
                  (JObj (<["stack" := JArr [JStr "Go"; JNum 7]]> example_brief)) e)
        as (H1 & H2 & _)
  end.
  - vm_compute. reflexivity.
  - split; [exact H1|]. apply H2. eauto.
Defined.

(** X5: every field of the schema whose value does not conform (missing,
    of the wrong type, outside its closed set, empty, or an array with a
    non-string element) is named by an issue of the failure. *)
Theorem safeParse_names_nonconforming_field (m : gmap string json) (f : string) :
  f ∈ required_fields → field_conforms f (m !! f) = false →
  ∃ e, Zod.safeParse briefSchema (JObj m) = Zod.Failure e ∧
       ∃ i, i ∈ Zod.issues e ∧ located_at i f.
Proof.
  intros Hf Hc. rewrite <- brief_shape_keys in Hf.
  apply list_elem_of_fmap in Hf as ([k fs] & -> & Hin). simpl in *.
  destruct (brief_field_nonconforming k fs [Zod.PKey k] _ Hin Hc) as [i Hi].
  destruct (parse_object_issue brief_shape [] m k fs i Hin Hi) as (iss & Hiss & Hi').
  exists (Zod.mkZodError iss). split.
  - unfold Zod.safeParse. change briefSchema with (Zod.ZObject brief_shape). by rewrite Hiss.
  - exists i. split; [done|]. exact (brief_field_issue_located k fs _ i Hin Hi).
Qed.

Lemma safeParse_names_nonconforming_field_witness :
  ∃ e, Zod.safeParse briefSchema (JObj (<["domain" := JNum 3]> example_brief)) = Zod.Failure e ∧
       ∃ i, i ∈ Zod.issues e ∧ located_at i "domain".
Proof.
  apply (safeParse_names_nonconforming_field (<["domain" := JNum 3]> example_brief) "domain").
  - unfold required_fields. repeat constructor.
  - vm_compute. reflexivity.
Defined.

(** X6: an element of [stack], [goals] or [deliverables] that is not a
    string makes validation fail with an issue located at the index of that
    element. *)
Theorem safeParse_names_bad_element (m : gmap string json) (f : string)
    (l : list json) (n : nat) (x : json) :
  f ∈ array_fields → m !! f = Some (JArr l) → l !! n = Some x →
  is_string (Some x) = false →
  ∃ e, Zod.safeParse briefSchema (JObj m) = Zod.Failure e ∧
       ∃ i, i ∈ Zod.issues e ∧ Zod.path i = [Zod.PKey f; Zod.PIdx n].
Proof.
  intros Hf Hm Hn Hx.
  destruct (string_array_bad_element [Zod.PKey f] l n x Hn Hx) as (i & Hi & Hp).
  rewrite <- Hm in Hi.
  destruct (parse_object_issue brief_shape [] m f _ i (array_field_in_shape f Hf) Hi)
    as (iss & Hiss & Hi').
  exists (Zod.mkZodError iss). split.
  - unfold Zod.safeParse. change briefSchema with (Zod.ZObject brief_shape). by rewrite Hiss.
  - by exists i.
Qed.

Lemma safeParse_names_bad_element_witness :
  ∃ e, Zod.safeParse briefSchema (JObj (<["stack" := JArr [JStr "Go"; JNum 7]]> example_brief))
       = Zod.Failure e ∧
       ∃ i, i ∈ Zod.issues e ∧ Zod.path i = [Zod.PKey "stack"; Zod.PIdx 1].
Proof.
  apply (safeParse_names_bad_element (<["stack" := JArr [JStr "Go"; JNum 7]]> example_brief)
           "stack" [JStr "Go"; JNum 7] 1 (JNum 7)).
  - unfold array_fields. repeat constructor.
  - vm_compute. reflexivity.
  - reflexivity.
  - reflexivity.
Defined.

(** ** The batch validator: exit status and reports *)
Section BatchReports.
Import ValidateDataset.

Lemma report_headers_app o1 o2 :
  report_headers (o1 ++ o2) = report_headers o1 ++ report_headers o2.
Proof. apply omap_app. Qed.

Lemma forEach_check_headers l : ∀ index st,
  report_headers (out (forEach check index l st))
  = report_headers (out st)
    ++ ((λ n, "❌ Brief #" +:+ pretty n +:+ " failed validation:") <$> failing_from index l).
Proof.
  induction l as [|x l IH]; intros index st.
  - simpl. by rewrite app_nil_r.
  - simpl forEach. rewrite IH. simpl failing_from.
    change (fails x) with (negb (Zod.success (Zod.safeParse briefSchema x))).
    unfold check.
    destruct (Zod.safeParse briefSchema x) as [d|e]; simpl;
      rewrite report_headers_app; simpl; by rewrite <- app_assoc.
Qed.

Lemma failing_from_spec l : ∀ index n,
  n ∈ failing_from index l
  ↔ ∃ i b, l !! i = Some b ∧ fails b = true ∧ n = (index + i + 1)%nat.
Proof.
  induction l as [|x l IH]; intros index n; simpl.
  - split; [by intros ?%not_elem_of_nil | by intros (i & b & ? & _)].
  - rewrite elem_of_app, IH. split.
    + intros [H|(i & b & Hi & Hb & ->)].
      * destruct (fails x) eqn:E; [|by apply not_elem_of_nil in H].
        apply list_elem_of_singleton in H as ->. exists 0%nat, x.
        repeat split; [done|lia].
      * exists (S i), b. repeat split; [done..|lia].
    + intros ([|i] & b & Hi & Hb & ->).
      * left. injection Hi as ->. rewrite Hb. apply list_elem_of_singleton. lia.
      * right. exists i, b. repeat split; [done..|lia].
Qed.

Lemma no_failure_iff (l : list json) :
  length (List.filter fails l) = 0%nat ↔ Forall (λ b, fails b = false) l.
Proof.
  induction l as [|x l IH]; simpl; [by split; [constructor|]|].
  destruct (fails x) eqn:E; simpl.
  - split; [lia|]. intros [H _]%Forall_cons. congruence.
  - rewrite IH. split; [by constructor | by intros [_ ?]%Forall_cons].
Qed.

End BatchReports.

(** X7: the batch validator exits with status 0 exactly when the dataset
    file is read and parsed to an array all of whose briefs pass the schema;
    in every other case it exits with status 1. *)
Theorem batch_exit_status
    (readFileSync : string → Outcome Exception string)
    (JSON_parse : string → Outcome Exception json) :
  (∀ c, readFileSync ValidateDataset.DATASET_PATH ≫= JSON_parse ≠ Throw (Exit c)) →
  let status := (ValidateDataset.run readFileSync JSON_parse).2 in
  (status = 0 ∨ status = 1) ∧
  (status = 0
   ↔ ∃ briefs, readFileSync ValidateDataset.DATASET_PATH ≫= JSON_parse = Ok (JArr briefs)
               ∧ Forall (λ b, ValidateDataset.fails b = false) briefs).
Proof.
  intros Hexit status. unfold status, ValidateDataset.run, ValidateDataset.body.
  destruct (readFileSync ValidateDataset.DATASET_PATH ≫= JSON_parse) as [v|ex] eqn:E.
  - destruct v as [| | | |briefs|];
      try (simpl; split; [by right|]; split; [done | by intros (? & [=] & _)]).
    unfold ValidateDataset.validate.
    edestruct (forEach_check briefs 0%nat) as (H1 & _). rewrite H1. clear H1. simpl.
    case_bool_decide as Hk; simpl.
    + split; [by right|]. split; [done|].
      intros (l & [= <-] & Hall). apply no_failure_iff in Hall. lia.
    + split; [by left|]. split; [intros _|done].
      exists briefs. split; [done|]. apply no_failure_iff. lia.
  - destruct ex; try (simpl; split; [by right|]; split; [done | by intros (? & [=] & _)]).
    by destruct (Hexit code).
Qed.

Lemma batch_exit_status_witness :
  let status := (ValidateDataset.run (λ _, Ok "[]") JSON_parse_literal).2 in
  (status = 0 ∨ status = 1) ∧
  (status = 0
   ↔ ∃ briefs, (λ _ : string, Ok "[]") ValidateDataset.DATASET_PATH ≫= JSON_parse_literal
               = Ok (JArr briefs)
               ∧ Forall (λ b, ValidateDataset.fails b = false) briefs).
Proof.
  apply (batch_exit_status (λ _, Ok "[]") JSON_parse_literal).
  intros c. discriminate.
Defined.

(** X8: the failure reports number the briefs from 1 by their position in
    the array: the header lines on the console are those of the failing
    positions, in increasing order, and position [i + 1] is reported exactly
    when the element at index [i] fails the schema. *)
Theorem batch_reports_positions (briefs : list json) :
  report_headers (ValidateDataset.out (ValidateDataset.validate briefs))
  = (λ n, "❌ Brief #" +:+ pretty n +:+ " failed validation:") <$> failing_from 0 briefs ∧
  ∀ n, n ∈ failing_from 0 briefs
       ↔ ∃ i b, briefs !! i = Some b ∧ ValidateDataset.fails b = true ∧ n = (i + 1)%nat.
Proof.
  split.
  - unfold ValidateDataset.validate. by rewrite forEach_check_headers.
  - intros n. rewrite failing_from_spec. by setoid_rewrite Nat.add_0_l.
Qed.

Example batch_reports_positions_run :
  report_headers (ValidateDataset.out (ValidateDataset.validate
    [JObj example_brief; JNum 42; JObj example_brief; JNull]))
  = ["❌ Brief #2 failed validation:"; "❌ Brief #4 failed validation:"].
Proof. vm_compute. reflexivity. Qed.

(** ** The generation pipeline: parsing a whole response *)
Section ParsingAll.
Context {W : Type}.
Variable schema : Zod.Schema.

(** [json.map(parseSingleBrief)] on elements that all pass. *)
Lemma array_map_parse_all l (w : W) : ∀ index,
  Forall (λ b, Zod.success (Zod.safeParse schema b) = true) l →
  array_map (λ x _, Chat.parseSingleBrief schema x) index l w
  = (w, schema_safeParse <$> l, Ok (parsed schema l)).
Proof.
  induction l as [|x l IH]; intros index Hall; [done|].
  apply Forall_cons in Hall as [Hx Hall].
  destruct (Zod.safeParse schema x) as [d|] eqn:E; [|done].
  simpl. cbv [mbind M_bind]. rewrite (parseSingleBrief_valid _ _ _ _ E).
  fold (@array_map W json json). rewrite (IH (S index) Hall).
  unfold parsed. simpl. rewrite E. by rewrite app_nil_r.
Qed.

Lemma parsed_all l :
  Forall (λ b, Zod.success (Zod.safeParse schema b) = true) l →
  Forall2 (λ b d, Zod.safeParse schema b = Zod.Success d) l (parsed schema l).
Proof.
  induction 1 as [|x l Hx Hl IH]; [constructor|].
  unfold parsed. simpl. destruct (Zod.safeParse schema x) as [d|] eqn:E; [|done].
  by constructor.
Qed.

(** An array either passes as a whole or has a first failing element. *)
Lemma first_failure (l : list json) :
  Forall (λ b, Zod.success (Zod.safeParse schema b) = true) l ∨
  ∃ pre bad post e, l = pre ++ bad :: post ∧
    Forall (λ b, Zod.success (Zod.safeParse schema b) = true) pre ∧
    Zod.safeParse schema bad = Zod.Failure e.
Proof.
  induction l as [|x l IH]; [by left|].
  destruct (Zod.safeParse schema x) as [d|e] eqn:E.
  - destruct IH as [Hall|(pre & bad & post & e & -> & Hpre & Hbad)].
    + left. constructor; [by rewrite E | done].
    + right. exists (x :: pre), bad, post, e. split; [done|].
      split; [|done]. constructor; [by rewrite E | done].
  - right. by exists [], x, l, e.
Qed.

End ParsingAll.

(** X9: when every element of the response array passes the schema,
    [parseBriefs] returns the validated values of all the elements, in the
    order of the array, after one validation per element; the empty array
    gives the empty list. *)
Theorem parseBriefs_all_valid {W : Type} (schema : Zod.Schema) (l : list json) (w : W) :
  Forall (λ b, Zod.success (Zod.safeParse schema b) = true) l →
  Chat.parseBriefs schema (JArr l) w = (w, schema_safeParse <$> l, Ok (parsed schema l)) ∧
  Forall2 (λ b d, Zod.safeParse schema b = Zod.Success d) l (parsed schema l).
Proof.
  intros Hall. split; [by apply array_map_parse_all | by apply parsed_all].
Qed.

Lemma parseBriefs_all_valid_witness :
  let l := [JObj brief_with_user_stories; JObj example_brief] in
  Chat.parseBriefs briefSchema (JArr l) ()
  = ((), schema_safeParse <$> l, Ok (parsed briefSchema l)) ∧
  Forall2 (λ b d, Zod.safeParse briefSchema b = Zod.Success d) l (parsed briefSchema l).
Proof.
  apply (parseBriefs_all_valid briefSchema
           [JObj brief_with_user_stories; JObj example_brief] ()).
  repeat constructor.
Defined.

(** X10: on the same array and with the schema of the batch validator, the
    pipeline and the batch validator agree: [parseBriefs] returns briefs
    exactly when the batch validator counts no invalid brief. *)
Theorem parseBriefs_agrees_with_batch {W : Type} (l : list json) (w : W) :
  (∃ briefs, (Chat.parseBriefs briefSchema (JArr l) w).2 = Ok briefs)
  ↔ ValidateDataset.errorCount (ValidateDataset.validate l) = 0%nat.
Proof.
  unfold ValidateDataset.validate.
  edestruct (forEach_check l 0%nat) as (-> & _). simpl.
  rewrite no_failure_iff.
  destruct (first_failure briefSchema l) as [Hall|(pre & bad & post & e & -> & Hpre & Hbad)].
  - split.
    + intros _. eapply Forall_impl; [exact Hall|]. intros b Hb.
      unfold ValidateDataset.fails. by rewrite Hb.
    + intros _. exists (parsed briefSchema l).
      unfold Chat.parseBriefs. by rewrite (array_map_parse_all briefSchema l w 0%nat Hall).
  - split.
    + intros [briefs Hb]. unfold Chat.parseBriefs in Hb.
      by rewrite (array_map_parse_stops briefSchema pre bad post e w 0%nat Hpre Hbad) in Hb.
    + intros Hall. apply Forall_app in Hall as [_ [Hb _]%Forall_cons].
      unfold ValidateDataset.fails in Hb. by rewrite Hbad in Hb.
Qed.

(** ** The generation pipeline: credentials and the LLM call *)

(** X11: [getSupabaseClient] returns a client exactly when both
    [SUPABASE_PROJECT_URL] and [SUPABASE_ANON_KEY] are set to non-empty
    strings, and the client is then created from these two values; in every
    other case, an empty string included, it throws the error that names the
    two variables. *)
Theorem getSupabaseClient_credentials {SupabaseClient : Type}
    (env : gmap string string) (createSupabaseClient : string → string → SupabaseClient) :
  let get := Chat.getSupabaseClient env createSupabaseClient in
  (∀ url key, env !! "SUPABASE_PROJECT_URL" = Some url → env !! "SUPABASE_ANON_KEY" = Some key →
     url ≠ "" → key ≠ "" → get = Ok (createSupabaseClient url key)) ∧
  ((∀ url, env !! "SUPABASE_PROJECT_URL" = Some url → url = "") ∨
   (∀ key, env !! "SUPABASE_ANON_KEY" = Some key → key = "") →
     get = Throw (Error "Missing SUPABASE_PROJECT_URL or SUPABASE_ANON_KEY. Set them in your environment or .env file.")).
Proof.
  intros get. unfold get, Chat.getSupabaseClient. split.
  - intros url key -> -> Hu Hk. by destruct url, key.
  - intros [H|H].
    + destruct (env !! "SUPABASE_PROJECT_URL") as [url|]; [|done].
      by rewrite (H url eq_refl).
    + destruct (env !! "SUPABASE_ANON_KEY") as [key|].
      * rewrite (H key eq_refl). simpl. by rewrite orb_true_r.
      * simpl. by rewrite orb_true_r.
Qed.

Lemma getSupabaseClient_credentials_witness :
  Chat.getSupabaseClient
    (<["SUPABASE_PROJECT_URL" := "https://db.example"]> (<["SUPABASE_ANON_KEY" := "anon"]> ∅))
    (λ url key, (url, key))
  = Ok ("https://db.example", "anon") ∧
  Chat.getSupabaseClient (<["SUPABASE_PROJECT_URL" := "https://db.example"]>
                            (<["SUPABASE_ANON_KEY" := ""]> ∅)) (λ url key, (url, key))
  = Throw (Error "Missing SUPABASE_PROJECT_URL or SUPABASE_ANON_KEY. Set them in your environment or .env file.").
Proof.
  split.
  - apply (proj1 (getSupabaseClient_credentials
                    (<["SUPABASE_PROJECT_URL" := "https://db.example"]>
                       (<["SUPABASE_ANON_KEY" := "anon"]> ∅)) (λ url key, (url, key))));
      [reflexivity | reflexivity | discriminate | discriminate].
  - apply (proj2 (getSupabaseClient_credentials
                    (<["SUPABASE_PROJECT_URL" := "https://db.example"]>
                       (<["SUPABASE_ANON_KEY" := ""]> ∅)) (λ url key, (url, key)))).
    right. intros key Hkey. vm_compute in Hkey. by injection Hkey as <-.
Defined.

(** X12: whatever the API answers, [getResponseFromOpenAI] sends exactly one
    request, which carries the model, the temperature 0.3 and the system
    message before the user message; a rejected request is rethrown as it
    is, and a response is never asked for again. *)
Theorem getResponseFromOpenAI_one_request {W OpenAI : Type}
    (JSON_parse : string → Outcome Exception json)
    (responses_create : OpenAI → Responses.Payload → W → W * Outcome Exception Chat.Response)
    (client : OpenAI) (userPrompt systemPrompt targetModel : string) (w : W) :
  let payload :=
    Responses.mkPayload targetModel (3, 10)
      [mkMessage "system" systemPrompt; mkMessage "user" userPrompt] in
  ∃ r, Chat.getResponseFromOpenAI JSON_parse responses_create
         client userPrompt systemPrompt targetModel w
       = ((responses_create client payload w).1, [openai_responses_create payload], r) ∧
       ∀ ex, (responses_create client payload w).2 = Throw ex → r = Throw ex.
Proof.
  intros payload. unfold Chat.getResponseFromOpenAI.
  cbv [mbind M_bind await]. fold payload.
  destruct (responses_create client payload w) as [w' [response|ex]]; simpl.
  - destruct (truthy (Chat.output_text response)); simpl; eexists; (split; [reflexivity|done]).
  - eexists. split; [reflexivity|]. by intros ? [= <-].
Qed.

(** ** The generation pipeline: the calls of one insertion *)
Section InsertionCalls.
Context {W SupabaseClient : Type}.
Variable briefs_insert_select_single :
  SupabaseClient → BriefRow → W → W * Outcome Exception Chat.SingleResponse.
Variable brief_user_stories_insert :
  SupabaseClient → list UserStoryRow → W → W * Outcome Exception (option Chat.PostgrestError).
Variable supabaseClient : SupabaseClient.

Lemma null_or_not (v : json) : v = JNull ∨ v ≠ JNull.
Proof. destruct v; first [by left | by right]. Qed.

(** Building the rows of the user stories calls no service. *)
Lemma array_map_userStoryRow_silent briefId l (w : W) : ∀ index,
  ∃ res, array_map (Chat.userStoryRow briefId) index l w = (w, [], res) ∧
         ∀ rows, res = Ok rows → length rows = length l.
Proof.
  induction l as [|s l IH]; intros index.
  - exists (Ok []). split; [done|]. by intros ? [= <-].
  - simpl. cbv [mbind M_bind]. destruct (null_or_not s) as [->|Hs].
    + eexists. split; [reflexivity|]. intros ? [=].
    + rewrite (userStoryRow_ok briefId s index w Hs).
      fold (@array_map W json UserStoryRow).
      destruct (IH (S index)) as (res & -> & Hlen).
      destruct res as [rows|ex]; simpl.
      * eexists. split; [reflexivity|]. intros ? [= <-]. simpl. by rewrite (Hlen rows).
      * eexists. split; [reflexivity|]. intros ? [=].
Qed.

Lemma user_stories_map_silent briefId v (w : W) :
  ∃ res, Chat.user_stories_map v (Chat.userStoryRow briefId) w = (w, [], res).
Proof.
  destruct v as [[| | | |l|]|]; simpl; try (eexists; reflexivity).
  destruct (array_map_userStoryRow_silent briefId l w 0%nat) as (res & -> & _). eauto.
Qed.

(** The possible traces of [insertBriefInDB]. *)
Lemma insertBriefInDB_traces brief embedding (w w' : W) t r :
  Chat.insertBriefInDB briefs_insert_select_single brief_user_stories_insert
    supabaseClient brief embedding w = (w', t, r) →
  (t = [] ∧ brief = JNull ∧ w' = w ∧ ∃ ex, r = Throw ex) ∨
  (t = [supabase_insert_brief (row_of brief embedding)] ∧ ∃ ex, r = Throw ex) ∨
  (∃ rows, t = [supabase_insert_brief (row_of brief embedding);
                supabase_insert_user_stories rows] ∧ ∃ ex, r = Throw ex) ∨
  (∃ rows data,
     t = [supabase_insert_brief (row_of brief embedding);
          supabase_insert_user_stories rows;
          console_log [AStr "Brief inserted into database with ID:"; AValue (prop data "id")]] ∧
     r = Ok {| Chat.brief := data; Chat.userStoriesInserted := length rows |}).
Proof.
  destruct (null_or_not brief) as [->|Hb].
  - intros [= <- <- <-]. left. eauto.
  - unfold Chat.insertBriefInDB. rewrite !(get_prop_ok brief) by done.
    cbv [mbind M_bind lift await]. fold (row_of brief embedding).
    destruct (briefs_insert_select_single _ _ w) as [w1 [r1|ex]];
      [|intros [= <- <- <-]; right; left; eauto].
    destruct (Chat.error r1) as [e|];
      [intros [= <- <- <-]; right; left; eauto|].
    destruct (get_prop (Chat.data r1) "id") as [briefId|ex] eqn:Eid;
      [|intros [= <- <- <-]; right; left; eauto].
    destruct (user_stories_map_silent briefId (prop brief "user_stories") w1) as [res ->].
    destruct res as [rows|ex]; [|intros [= <- <- <-]; right; left; eauto].
    destruct (brief_user_stories_insert _ rows w1) as [w2 [[e|]|ex]];
      intros [= <- <- <-]; right; right.
    + left. eauto.
    + right. exists rows, (Chat.data r1). split; [|done]. simpl.
      destruct (Chat.data r1); try discriminate Eid; by injection Eid as <-.
    + left. eauto.
Qed.

End InsertionCalls.

(** X13: in every run of [insertBriefInDB], whatever the brief and whatever
    the datastore answers, the datastore calls are at most one insert into
    [briefs] followed by at most one insert into [brief_user_stories]; the
    row of the first is built from the brief and the given embedding; and a
    summary is returned only after both inserts, counting the rows of the
    second. *)
Theorem insertBriefInDB_call_discipline {W SupabaseClient : Type}
    (briefs_insert_select_single :
       SupabaseClient → BriefRow → W → W * Outcome Exception Chat.SingleResponse)
    (brief_user_stories_insert :
       SupabaseClient → list UserStoryRow → W → W * Outcome Exception (option Chat.PostgrestError))
    (supabaseClient : SupabaseClient)
    (brief : json) (embedding : list Z) (w w' : W) (t : list Effect)
    (r : Outcome Exception Chat.InsertionSummary) :
  Chat.insertBriefInDB briefs_insert_select_single brief_user_stories_insert
    supabaseClient brief embedding w = (w', t, r) →
  let first := supabase_insert_brief (row_of brief embedding) in
  (List.filter is_storage t = [] ∨
   List.filter is_storage t = [first] ∨
   ∃ rows, List.filter is_storage t = [first; supabase_insert_user_stories rows]) ∧
  (∀ s, r = Ok s →
     ∃ rows, List.filter is_storage t = [first; supabase_insert_user_stories rows] ∧
             Chat.userStoriesInserted s = length rows).
Proof.
  intros Hrun first.
  destruct (insertBriefInDB_traces _ _ _ _ _ _ _ _ _ Hrun)
    as [(-> & _ & _ & ex & ->) | [(-> & ex & ->) | [(rows & -> & ex & ->) | (rows & data & -> & ->)]]];
    simpl.
  - split; [by left | by intros ? [=]].
  - split; [by right; left | by intros ? [=]].
  - split; [right; right; by exists rows | by intros ? [=]].
  - split; [right; right; by exists rows|].
    intros s [= <-]. by exists rows.
Qed.

Lemma insertBriefInDB_call_discipline_witness :
  let t := (MemoryStore.insertBriefInDB (JObj brief_with_user_stories) [] MemoryStore.empty).1.2 in
  let first := supabase_insert_brief (row_of (JObj brief_with_user_stories) []) in
  List.filter is_storage t = [] ∨
  List.filter is_storage t = [first] ∨
  ∃ rows, List.filter is_storage t = [first; supabase_insert_user_stories rows].
Proof.
  intros t.
  destruct (MemoryStore.insertBriefInDB (JObj brief_with_user_stories) [] MemoryStore.empty)
    as [[w' t'] r] eqn:E.
  exact (proj1 (insertBriefInDB_call_discipline _ _ _ _ _ _ _ _ _ E)).
Defined.

(** ** The entry point of the generation pipeline *)
Section EntryPoint.
Context {W OpenAI SupabaseClient Embedder CliArgs : Type}.
Variable env : gmap string string.
Variable createOpenAIClient : string → OpenAI.
Variable createSupabaseClient : string → string → SupabaseClient.
Variable schema : Zod.Schema.
Variable JSON_parse : string → Outcome Exception json.
Variable responses_create :
  OpenAI → Responses.Payload → W → W * Outcome Exception Chat.Response.
Variable briefs_insert_select_single :
  SupabaseClient → BriefRow → W → W * Outcome Exception Chat.SingleResponse.
Variable brief_user_stories_insert :
  SupabaseClient → list UserStoryRow → W → W * Outcome Exception (option Chat.PostgrestError).
Variable parseCliArgs : W → W * Outcome Exception CliArgs.
Variable buildSystemPrompt : W → W * Outcome Exception string.
Variable buildUserPrompt : CliArgs → W → W * Outcome Exception string.
Variable writeBriefsToFile : json → W → W * Outcome Exception string.
Variable pipeline : string → string → W → W * Outcome Exception Embedder.
Variable generateEmbedding : Embedder → string → W → W * Outcome Exception (list Z).
Variable JSON_stringify : json → string.

(** Without the datastore credentials [generate] stops right after loading
    the embedder. *)
Lemma generate_without_datastore_credentials (w : W) :
  truthy (env !! "SUPABASE_PROJECT_URL") = false ∨ truthy (env !! "SUPABASE_ANON_KEY") = false →
  ∃ ex, ChatMain.generate env createOpenAIClient createSupabaseClient JSON_parse
          responses_create parseCliArgs buildSystemPrompt buildUserPrompt pipeline w
        = ((pipeline "feature-extraction" "Supabase/gte-small" w).1, [], Throw ex).
Proof.
  intros H. unfold ChatMain.generate. cbv [mbind M_bind silent lift].
  destruct (pipeline _ _ w) as [w1 [embedder|ex]]; simpl; [|eauto].
  unfold Chat.getSupabaseClient.
  destruct H as [-> | ->]; simpl; rewrite ?orb_true_r; eauto.
Qed.

(** Without the API key [generate] sends no request. *)
Lemma generate_without_api_key (w : W) :
  truthy (env !! "OPENAI_API_KEY") = false →
  ∃ w' ex, ChatMain.generate env createOpenAIClient createSupabaseClient JSON_parse
             responses_create parseCliArgs buildSystemPrompt buildUserPrompt pipeline w
           = (w', [], Throw ex).
Proof.
  intros H. unfold ChatMain.generate. cbv [mbind M_bind silent lift].
  destruct (pipeline _ _ w) as [w1 [embedder|ex]]; simpl; [|eauto].
  destruct (Chat.getSupabaseClient env createSupabaseClient) as [sc|ex]; [|eauto].
  destruct (parseCliArgs w1) as [w2 [cliArgs|ex]]; simpl; [|eauto].
  destruct (buildSystemPrompt w2) as [w3 [systemPrompt|ex]]; simpl; [|eauto].
  destruct (buildUserPrompt cliArgs w3) as [w4 [userPrompt|ex]]; simpl; [|eauto].
  unfold Chat.getOpenAIClient. rewrite H. simpl. eauto.
Qed.

End EntryPoint.

(** X14: when a credential is missing from the environment (the datastore
    URL, the datastore key or the API key, unset or empty), [main] throws
    with an empty trace: no request is sent to the LLM, nothing is validated,
    inserted or logged; and when it is a datastore credential that is
    missing, nothing runs after the loading of the embedder. *)
Theorem main_credentials_gate {W OpenAI SupabaseClient Embedder CliArgs : Type}
    (env : gmap string string)
    (createOpenAIClient : string → OpenAI)
    (createSupabaseClient : string → string → SupabaseClient)
    (schema : Zod.Schema)
    (JSON_parse : string → Outcome Exception json)
    (responses_create : OpenAI → Responses.Payload → W → W * Outcome Exception Chat.Response)
    (briefs_insert_select_single :
       SupabaseClient → BriefRow → W → W * Outcome Exception Chat.SingleResponse)
    (brief_user_stories_insert :
       SupabaseClient → list UserStoryRow → W → W * Outcome Exception (option Chat.PostgrestError))
    (parseCliArgs : W → W * Outcome Exception CliArgs)
    (buildSystemPrompt : W → W * Outcome Exception string)
    (buildUserPrompt : CliArgs → W → W * Outcome Exception string)
    (writeBriefsToFile : json → W → W * Outcome Exception string)
    (pipeline : string → string → W → W * Outcome Exception Embedder)
    (generateEmbedding : Embedder → string → W → W * Outcome Exception (list Z))
    (JSON_stringify : json → string) (w : W) :
  let main := ChatMain.main env createOpenAIClient createSupabaseClient schema JSON_parse
                responses_create briefs_insert_select_single brief_user_stories_insert
                parseCliArgs buildSystemPrompt buildUserPrompt writeBriefsToFile
                pipeline generateEmbedding JSON_stringify in
  (truthy (env !! "SUPABASE_PROJECT_URL") = false ∨
   truthy (env !! "SUPABASE_ANON_KEY") = false ∨
   truthy (env !! "OPENAI_API_KEY") = false →
     ∃ w' ex, main w = (w', [], Throw ex)) ∧
  (truthy (env !! "SUPABASE_PROJECT_URL") = false ∨
   truthy (env !! "SUPABASE_ANON_KEY") = false →
     ∃ ex, main w = ((pipeline "feature-extraction" "Supabase/gte-small" w).1, [], Throw ex)).
Proof.
  intros main.
  assert (Hds : truthy (env !! "SUPABASE_PROJECT_URL") = false ∨
                truthy (env !! "SUPABASE_ANON_KEY") = false →
                ∃ ex, main w = ((pipeline "feature-extraction" "Supabase/gte-small" w).1,
                                [], Throw ex)).
  { intros H. unfold main, ChatMain.main. cbv [mbind M_bind].
    destruct (generate_without_datastore_credentials env createOpenAIClient
                createSupabaseClient JSON_parse responses_create parseCliArgs
                buildSystemPrompt buildUserPrompt pipeline w H) as [ex ->]. eauto. }
  split; [|exact Hds].
  intros [H|[H|H]].
  - destruct (Hds (or_introl H)) as [ex ->]. eauto.
  - destruct (Hds (or_intror H)) as [ex ->]. eauto.
  - unfold main, ChatMain.main. cbv [mbind M_bind].
    destruct (generate_without_api_key env createOpenAIClient
                createSupabaseClient JSON_parse responses_create parseCliArgs
                buildSystemPrompt buildUserPrompt pipeline w H) as (w' & ex & ->). eauto.
Qed.

Lemma main_credentials_gate_witness :
  ∃ w' ex, Reference.main (delete "OPENAI_API_KEY" Reference.env) MemoryStore.empty
           = (w', [], Throw ex).
Proof.
  apply (proj1 (main_credentials_gate (delete "OPENAI_API_KEY" Reference.env)
                  (λ _, ()) (λ _ _, ()) briefSchema Reference.JSON_parse
                  Reference.responses_create
                  MemoryStore.briefs_insert_select_single MemoryStore.brief_user_stories_insert
                  (λ w, (w, Ok ())) (λ w, (w, Ok "system")) (λ _ w, (w, Ok "user"))
                  (λ _ w, (w, Throw (Rejected "read-only file system")))
                  (λ _ _ w, (w, Ok ())) (λ _ _ w, (w, Ok [])) Reference.JSON_stringify
                  MemoryStore.empty)).
  right. right. vm_compute. reflexivity.
Defined.

(** ** The entry point: validation before storage *)
Section Persist.
Context {W SupabaseClient Embedder : Type}.
Variable schema : Zod.Schema.
Variable briefs_insert_select_single :
  SupabaseClient → BriefRow → W → W * Outcome Exception Chat.SingleResponse.
Variable brief_user_stories_insert :
  SupabaseClient → list UserStoryRow → W → W * Outcome Exception (option Chat.PostgrestError).
Variable writeBriefsToFile : json → W → W * Outcome Exception string.
Variable generateEmbedding : Embedder → string → W → W * Outcome Exception (list Z).
Variable JSON_stringify : json → string.
Variable embedder : Embedder.
Variable supabaseClient : SupabaseClient.

Lemma inserted_briefs_app t1 t2 :
  inserted_briefs (t1 ++ t2) = inserted_briefs t1 ++ inserted_briefs t2.
Proof. apply omap_app. Qed.

Lemma saved_app t1 t2 : ChatMain.saved (t1 ++ t2) = ChatMain.saved t1 ++ ChatMain.saved t2.
Proof. apply omap_app. Qed.

Lemma inserted_briefs_log args t :
  inserted_briefs (console_log args :: t) = inserted_briefs t.
Proof. reflexivity. Qed.

Lemma saved_log2 s b c t :
  ChatMain.saved (console_log (AStr s :: b :: c) :: t) = ChatMain.saved t.
Proof. reflexivity. Qed.

Lemma inserted_briefs_safeParse l : inserted_briefs (schema_safeParse <$> l) = [].
Proof. induction l; simpl; auto. Qed.

Lemma saved_safeParse l : ChatMain.saved (schema_safeParse <$> l) = [].
Proof. induction l; simpl; auto. Qed.

(** [parseBriefs] only validates: its trace is a list of validations and it
    leaves the outside world as it is. *)
Lemma parseBriefs_validates_only j (w : W) :
  ∃ seen r, Chat.parseBriefs schema j w = (w, schema_safeParse <$> seen, r).
Proof.
  assert (Hone : ∀ v, ∃ r,
            (Chat.parseSingleBrief schema v ≫= λ b, mret [b]) w = (w, [schema_safeParse v], r)).
  { intros v. cbv [mbind M_bind].
    destruct (Zod.safeParse schema v) as [d|e] eqn:E.
    - rewrite (parseSingleBrief_valid _ _ _ _ E). eauto.
    - rewrite (parseSingleBrief_invalid _ _ _ _ E). eauto. }
  assert (Hsingle : (∀ l, j ≠ JArr l) →
            ∃ seen r, Chat.parseBriefs schema j w = (w, schema_safeParse <$> seen, r)).
  { intros Hj. destruct (Hone j) as [r Hr]. exists [j], r.
    destruct j; try exact Hr. by destruct (Hj l). }
  destruct j as [| | | |l|]; try (apply Hsingle; discriminate).
  clear Hsingle. unfold Chat.parseBriefs.
  destruct (first_failure schema l) as [Hall|(pre & bad & post & e & -> & Hpre & Hbad)].
  - rewrite (array_map_parse_all schema l w 0%nat Hall). eauto.
  - rewrite (array_map_parse_stops schema pre bad post e w 0%nat Hpre Hbad). eauto.
Qed.

Lemma embed_and_insert_rows x index (w w' : W) t r :
  ChatMain.embed_and_insert briefs_insert_select_single brief_user_stories_insert
    generateEmbedding JSON_stringify embedder supabaseClient x index w = (w', t, r) →
  ChatMain.saved t = [] ∧
  ((inserted_briefs t = [] ∧ ∃ ex, r = Throw ex) ∨
   ∃ row, inserted_briefs t = [row] ∧ from_validated row x).
Proof.
  unfold ChatMain.embed_and_insert. cbv [mbind M_bind silent].
  destruct (generateEmbedding embedder (JSON_stringify x) w) as [w1 [embedding|ex]];
    [|intros [= <- <- <-]; split; [done|left; eauto]].
  destruct (Chat.insertBriefInDB _ _ _ x embedding w1) as [[w2 t2] r2] eqn:E.
  intros [= <- <- <-]. simpl.
  destruct (insertBriefInDB_traces _ _ _ _ _ _ _ _ _ E)
    as [(-> & _ & _ & ex & ->) | [(-> & ex & ->) | [(rows & -> & ex & ->) | (rows & data & -> & ->)]]];
    (split; [done|]); [left; eauto | right; eexists; split; [done | by exists embedding] ..].
Qed.

(** The loop inserts the rows of a prefix of the briefs, in order, and of
    all of them when it completes. *)
Lemma loop_rows l : ∀ index (w w' : W) t r,
  array_map (ChatMain.embed_and_insert briefs_insert_select_single brief_user_stories_insert
               generateEmbedding JSON_stringify embedder supabaseClient) index l w
  = (w', t, r) →
  ChatMain.saved t = [] ∧
  ∃ k, (k ≤ length l)%nat ∧ Forall2 from_validated (inserted_briefs t) (take k l) ∧
       ∀ sums, r = Ok sums → k = length l.
Proof.
  induction l as [|x l IH]; intros index w w' t r.
  - intros [= <- <- <-]. split; [done|]. exists 0%nat. repeat split; [done | constructor].
  - simpl. cbv [mbind M_bind].
    destruct (ChatMain.embed_and_insert _ _ _ _ _ _ x index w) as [[w1 t1] r1] eqn:E1.
    destruct (embed_and_insert_rows _ _ _ _ _ _ E1) as [Hs1 Hr1].
    destruct r1 as [y|ex].
    + fold (@array_map W json Chat.InsertionSummary).
      destruct (array_map _ (S index) l w1) as [[w2 t2] r2] eqn:E2.
      destruct (IH _ _ _ _ _ E2) as (Hs2 & k & Hk & Hrows & Hall).
      destruct Hr1 as [(_ & ? & [=]) | (row & Hrow & Hfrom)].
      assert (Ht : ChatMain.saved (t1 ++ t2) = [] ∧
                   inserted_briefs (t1 ++ t2) = row :: inserted_briefs t2).
      { by rewrite saved_app, inserted_briefs_app, Hs1, Hs2, Hrow. }
      destruct Ht as [Hs Hi].
      destruct r2 as [ys|ex]; intros [= <- <- <-]; rewrite ?app_nil_r;
        (split; [exact Hs|]); exists (S k); rewrite Hi; simpl;
        (split; [lia|]); (split; [by constructor|]).
      * intros ? _. f_equal. by apply (Hall ys).
      * intros ? [=].
    + intros [= <- <- <-]. split; [done|].
      destruct Hr1 as [(Hnone & _) | (row & Hrow & Hfrom)].
      * exists 0%nat. rewrite Hnone. simpl. repeat split; [lia | constructor | by intros ? [=]].
      * exists 1%nat. rewrite Hrow. simpl. rewrite take_0.
        repeat split; [lia | by repeat constructor | by intros ? [=]].
Qed.

End Persist.

(** X15: when an element of the response array fails the schema, the part
    of [main] that follows the LLM call logs the response, validates the
    elements up to the failing one and throws the validation error, leaving
    the outside world untouched: no embedding is computed, no row is
    inserted and no file is written, also for the elements that passed. *)
Theorem persist_rejects_invalid_response {W SupabaseClient Embedder : Type}
    (schema : Zod.Schema)
    (briefs_insert_select_single :
       SupabaseClient → BriefRow → W → W * Outcome Exception Chat.SingleResponse)
    (brief_user_stories_insert :
       SupabaseClient → list UserStoryRow → W → W * Outcome Exception (option Chat.PostgrestError))
    (writeBriefsToFile : json → W → W * Outcome Exception string)
    (generateEmbedding : Embedder → string → W → W * Outcome Exception (list Z))
    (JSON_stringify : json → string)
    (embedder : Embedder) (supabaseClient : SupabaseClient)
    (pre post : list json) (bad : json) (e : Zod.ZodError) (w : W) :
  Forall (λ b, Zod.success (Zod.safeParse schema b) = true) pre →
  Zod.safeParse schema bad = Zod.Failure e →
  let response := JArr (pre ++ bad :: post) in
  ChatMain.persist schema briefs_insert_select_single brief_user_stories_insert
    writeBriefsToFile generateEmbedding JSON_stringify embedder supabaseClient response w
  = (w,
     console_log [AStr "jsonParsedResponse : "; AValue (Some response)]
       :: (schema_safeParse <$> (pre ++ [bad])),
     Throw (InvalidJsonFormat e)).
Proof.
  intros Hpre Hbad response. unfold ChatMain.persist. cbv [mbind M_bind emit].
  unfold response, Chat.parseBriefs.
  by rewrite (array_map_parse_stops schema pre bad post e w 0%nat Hpre Hbad).
Qed.

Lemma persist_rejects_invalid_response_witness :
  let response := JArr ([JObj example_brief] ++ JNum 42 :: [JObj example_brief]) in
  Reference.persist response MemoryStore.empty
  = (MemoryStore.empty,
     console_log [AStr "jsonParsedResponse : "; AValue (Some response)]
       :: (schema_safeParse <$> ([JObj example_brief] ++ [JNum 42])),
     Throw (InvalidJsonFormat (Zod.mkZodError
       [Zod.mkIssue (Zod.invalid_type (Zod.ExpType Zod.TObject) Zod.TNumber) []]))).
Proof.
  apply (persist_rejects_invalid_response briefSchema
           MemoryStore.briefs_insert_select_single MemoryStore.brief_user_stories_insert
           (λ _ w, (w, Throw (Rejected "read-only file system")))
           (λ _ _ w, (w, Ok [])) Reference.JSON_stringify () ()
           [JObj example_brief] [JObj example_brief] (JNum 42)).
  - repeat constructor.
  - reflexivity.
Defined.

(** X16: in every run of the part of [main] that follows the LLM call, the
    rows inserted into table [briefs] are the rows of the first [k]
    validated briefs, one each and in the order of the response (none when
    validation fails); when the run completes, every validated brief has
    been inserted and the saved file is reported once; when it throws, no
    saved file is reported. *)
Theorem persist_inserts_validated_prefix {W SupabaseClient Embedder : Type}
    (schema : Zod.Schema)
    (briefs_insert_select_single :
       SupabaseClient → BriefRow → W → W * Outcome Exception Chat.SingleResponse)
    (brief_user_stories_insert :
       SupabaseClient → list UserStoryRow → W → W * Outcome Exception (option Chat.PostgrestError))
    (writeBriefsToFile : json → W → W * Outcome Exception string)
    (generateEmbedding : Embedder → string → W → W * Outcome Exception (list Z))
    (JSON_stringify : json → string)
    (embedder : Embedder) (supabaseClient : SupabaseClient)
    (response : json) (w w' : W) (t : list Effect) (r : Outcome Exception ()) :
  ChatMain.persist schema briefs_insert_select_single brief_user_stories_insert
    writeBriefsToFile generateEmbedding JSON_stringify embedder supabaseClient response w
  = (w', t, r) →
  let validated :=
    match (Chat.parseBriefs schema response w).2 with
    | Ok briefs => briefs
    | Throw _ => []
    end in
  ∃ k, (k ≤ length validated)%nat ∧
       Forall2 from_validated (inserted_briefs t) (take k validated) ∧
       match r with
       | Ok _ => k = length validated ∧
                 ∃ path, ChatMain.saved t = ["Briefs saved to " +:+ path]
       | Throw _ => ChatMain.saved t = []
       end.
Proof.
  unfold ChatMain.persist. cbv [mbind M_bind emit].
  destruct (parseBriefs_validates_only schema response w) as (seen & rp & ->). cbn [snd].
  destruct rp as [briefs|ex].
  2:{ intros [= <- <- <-]. exists 0%nat.
      rewrite inserted_briefs_log, saved_log2, inserted_briefs_safeParse, saved_safeParse.
      repeat split; [done | constructor]. }
  destruct (array_map _ 0%nat briefs w) as [[w2 t2] r2] eqn:E2.
  destruct (loop_rows _ _ _ _ _ _ _ _ _ _ _ _ E2) as (Hs2 & k & Hk & Hrows & Hall).
  assert (Hpre : ∀ a b t,
            inserted_briefs (console_log [AStr a; AValue (Some response)]
                               :: (schema_safeParse <$> seen) ++ console_log [AStr b; AValue (Some (JArr briefs))] :: t)
            = inserted_briefs t ∧
            ChatMain.saved (console_log [AStr a; AValue (Some response)]
                              :: (schema_safeParse <$> seen) ++ console_log [AStr b; AValue (Some (JArr briefs))] :: t)
            = ChatMain.saved t).
  { intros a b t0.
    by rewrite inserted_briefs_log, saved_log2, inserted_briefs_app, saved_app,
         inserted_briefs_safeParse, saved_safeParse, inserted_briefs_log, saved_log2. }
  destruct r2 as [sums|ex].
  2:{ intros [= <- <- <-]. exists k.
      destruct (Hpre "jsonParsedResponse : " "parsed briefs : " t2) as [-> ->].
      by repeat split. }
  unfold ChatMain.writeBriefsToFilepath. cbv [mbind M_bind emit silent].
  destruct (writeBriefsToFile response w2) as [w3 [path|ex]];
    intros [= <- <- <-]; exists k;
    match goal with
    | |- context [inserted_briefs (_ :: _ ++ _ :: ?t0)] =>
        destruct (Hpre "jsonParsedResponse : " "parsed briefs : " t0) as [-> ->]
    end;
    rewrite inserted_briefs_app, saved_app, Hs2; simpl; rewrite ?app_nil_r.
  - split; [done|]. split; [done|]. split; [by apply (Hall sums) | by exists path].
  - by repeat split.
Qed.

Lemma persist_inserts_validated_prefix_witness :
  ∃ k, (k ≤ 1)%nat ∧
       Forall2 from_validated
         (inserted_briefs (Reference.persist (JArr [JObj example_brief]) MemoryStore.empty).1.2)
         (take k [JObj example_brief]).
Proof.
  destruct (Reference.persist (JArr [JObj example_brief]) MemoryStore.empty)
    as [[w' t] r] eqn:E.
  destruct (persist_inserts_validated_prefix briefSchema
              MemoryStore.briefs_insert_select_single MemoryStore.brief_user_stories_insert
              (λ _ w, (w, Throw (Rejected "read-only file system")))
              (λ _ _ w, (w, Ok [])) Reference.JSON_stringify () ()
              (JArr [JObj example_brief]) MemoryStore.empty w' t r E)
    as (k & Hk & Hrows & _).
  exists k. split; [exact Hk | exact Hrows].
Defined.

(** ** The streaming entry point: exit status and output *)
Section StreamRuns.
Import Stream.
Variable process : Process.
Variable create : option string → ChatCompletions.Payload → Outcome Exception ChatStream.

(** The run once the stream is open. *)
Lemma main_streaming stream :
  truthy (env process !! "OPENAI_API_KEY") = true →
  create (env process !! "OPENAI_API_KEY") main_payload = Ok stream →
  main process create
  = match failure stream with
    | Some e =>
        ([openai_chat_completions_create main_payload;
          console_log [AStr ("--- streaming start ---" +:+ nl)]]
         ++ (stdout_write <$> fragments (chunks stream)), Throw e)
    | None =>
        ([openai_chat_completions_create main_payload;
          console_log [AStr ("--- streaming start ---" +:+ nl)]]
         ++ (stdout_write <$> fragments (chunks stream))
         ++ (if bool_decide (fragments (chunks stream) = [])
             then [console_error [AStr (nl +:+ "(No streamed content received)")]]
             else [])
         ++ [console_log [AStr (nl +:+ nl +:+ "--- streaming end ---")]], Ok ())
    end.
Proof.
  intros Hkey Hcreate. unfold main. rewrite Hkey. cbn [negb].
  change (ChatCompletions.mkPayload _ _ _ _) with main_payload.
  rewrite Hcreate, foldl_on_chunk. destruct (failure stream); [done|].
  cbn [orb negb]. rewrite negb_involutive, <- app_assoc. reflexivity.
Qed.

Lemma written_app o1 o2 : written (o1 ++ o2) = written o1 ++ written o2.
Proof. apply omap_app. Qed.

Lemma concat_empty_cons x l : String.concat "" (x :: l) = x +:+ String.concat "" l.
Proof.
  destruct l as [|y l]; simpl; [|done].
  induction x as [|a x IH]; [done|].
  change (String a x = String a (x +:+ "")). f_equal. exact IH.
Qed.

Lemma fragments_cons c l :
  fragments (c :: l)
  = (if truthy (chunk_content c) then [chunk_text c] else []) ++ fragments l.
Proof.
  unfold fragments, chunk_text. simpl.
  by destruct (chunk_content c) as [[|a x]|].
Qed.

Lemma concat_fragments l :
  String.concat "" (fragments l) = String.concat "" (chunk_text <$> l).
Proof.
  induction l as [|c l IH]; [done|].
  rewrite fragments_cons, fmap_cons, (concat_empty_cons (chunk_text c)), <- IH.
  unfold chunk_text.
  destruct (chunk_content c) as [[|a x]|]; cbn [truthy default app];
    rewrite ?concat_empty_cons; reflexivity.
Qed.

End StreamRuns.

(** X17: the streaming script exits with status 0 exactly when the API key
    is set, the streamed call is accepted and the stream ends without error;
    otherwise it exits with status 1, and without the API key it sends no
    request at all. *)
Theorem stream_exit_status (process : Stream.Process)
    (create : option string → ChatCompletions.Payload → Outcome Exception Stream.ChatStream) :
  let key := Stream.env process !! "OPENAI_API_KEY" in
  (∀ c, create key Stream.main_payload ≠ Throw (Exit c)) →
  (∀ stream c, create key Stream.main_payload = Ok stream → Stream.failure stream ≠ Some (Exit c)) →
  let status := (Stream.run process create).2 in
  (status = 0 ∨ status = 1) ∧
  (status = 0 ↔ truthy key = true ∧
                ∃ stream, create key Stream.main_payload = Ok stream ∧ Stream.failure stream = None) ∧
  (truthy key = false →
     Stream.run process create
     = ([console_error [AStr "Missing OPENAI_API_KEY. Set it in your environment or .env file."]], 1)).
Proof.
  intros key Hc Hf status. unfold status, Stream.run.
  destruct (truthy key) eqn:Hkey.
  - destruct (create key Stream.main_payload) as [stream|ex] eqn:Hcreate.
    + rewrite (main_streaming process create stream Hkey Hcreate).
      destruct (Stream.failure stream) as [ex|] eqn:Hfail.
      * destruct ex; try (simpl; split; [by right|]; split; [|done];
                          split; [done|]; intros (_ & s & [= <-] & Hs); congruence).
        by destruct (Hf stream code eq_refl).
      * simpl. split; [by left|]. split; [|done]. split; [intros _|done].
        split; [done|]. by exists stream.
    + assert (Hm : Stream.main process create
                   = ([openai_chat_completions_create Stream.main_payload], Throw ex)).
      { unfold Stream.main. fold key. rewrite Hkey. cbn [negb].
        change (ChatCompletions.mkPayload _ _ _ _) with Stream.main_payload.
        by rewrite Hcreate. }
      rewrite Hm.
      destruct ex; try (simpl; split; [by right|]; split; [|done];
                        split; [done|]; by intros (_ & s & [=] & _)).
      by destruct (Hc code).
  - assert (Hm : Stream.main process create
                 = ([console_error [AStr "Missing OPENAI_API_KEY. Set it in your environment or .env file."]],
                    Throw (Exit 1))).
    { unfold Stream.main. fold key. by rewrite Hkey. }
    rewrite Hm. simpl. split; [by right|]. split; [|done]. split; [done | by intros [[=] _]].
Qed.

Lemma stream_exit_status_witness :
  Stream.run (Stream.mkProcess [] ∅) (λ _ _, Ok (Stream.mkChatStream [] None))
  = ([console_error [AStr "Missing OPENAI_API_KEY. Set it in your environment or .env file."]], 1).
Proof.
  apply (stream_exit_status (Stream.mkProcess [] ∅)
           (λ _ _, Ok (Stream.mkChatStream [] None))).
  - intros c. discriminate.
  - intros stream c [= <-]. discriminate.
  - reflexivity.
Defined.

(** X18: when the stream fails after some chunks, the fragments delivered
    before the failure stay written, the error is logged, the end marker is
    not printed and the script exits with status 1. *)
Theorem stream_failure_keeps_output (process : Stream.Process)
    (create : option string → ChatCompletions.Payload → Outcome Exception Stream.ChatStream)
    (stream : Stream.ChatStream) (ex : Exception) :
  truthy (Stream.env process !! "OPENAI_API_KEY") = true →
  create (Stream.env process !! "OPENAI_API_KEY") Stream.main_payload = Ok stream →
  Stream.failure stream = Some ex →
  (∀ c, ex ≠ Exit c) →
  Stream.run process create
  = ([openai_chat_completions_create Stream.main_payload;
      console_log [AStr ("--- streaming start ---" +:+ nl)]]
     ++ (stdout_write <$> Stream.fragments (Stream.chunks stream))
     ++ [console_error [AStr "Error:"; AErr ex]], 1).
Proof.
  intros Hkey Hcreate Hfail Hex. unfold Stream.run.
  rewrite (main_streaming process create stream Hkey Hcreate), Hfail.
  destruct ex; try (by rewrite <- app_assoc). by destruct (Hex code).
Qed.

Lemma stream_failure_keeps_output_witness :
  let chunk s := Stream.mkChunk (Some [Stream.mkChoice (Some (Stream.mkDelta (Some s)))]) in
  let stream := Stream.mkChatStream [chunk "[{"; chunk ""] (Some (Rejected "socket hang up")) in
  Stream.run (Stream.mkProcess [] {["OPENAI_API_KEY" := "sk-test"]}) (λ _ _, Ok stream)
  = ([openai_chat_completions_create Stream.main_payload;
      console_log [AStr ("--- streaming start ---" +:+ nl)]]
     ++ (stdout_write <$> Stream.fragments (Stream.chunks stream))
     ++ [console_error [AStr "Error:"; AErr (Rejected "socket hang up")]], 1).
Proof.
  intros chunk stream.
  apply (stream_failure_keeps_output
           (Stream.mkProcess [] {["OPENAI_API_KEY" := "sk-test"]}) (λ _ _, Ok stream)
           stream (Rejected "socket hang up")).
  - reflexivity.
  - reflexivity.
  - reflexivity.
  - intros c. discriminate.
Defined.

(** X19: the text written to standard output is the concatenation of the
    contents of the first-choice deltas of all the chunks delivered: skipping
    the chunks without content loses nothing, whether or not the stream
    fails afterwards. *)
Theorem stream_output_is_concatenation (process : Stream.Process)
    (create : option string → ChatCompletions.Payload → Outcome Exception Stream.ChatStream)
    (stream : Stream.ChatStream) :
  truthy (Stream.env process !! "OPENAI_API_KEY") = true →
  create (Stream.env process !! "OPENAI_API_KEY") Stream.main_payload = Ok stream →
  String.concat "" (Stream.written (Stream.main process create).1)
  = String.concat "" (chunk_text <$> Stream.chunks stream).
Proof.
  intros Hkey Hcreate.
  rewrite (main_streaming process create stream Hkey Hcreate), <- concat_fragments.
  f_equal.
  destruct (Stream.failure stream); cbn [fst]; rewrite !written_app, written_stdout_write;
    simpl; [done|].
  destruct (bool_decide _); simpl; by rewrite app_nil_r.
Qed.

Lemma stream_output_is_concatenation_witness :
  let chunk s := Stream.mkChunk (Some [Stream.mkChoice (Some (Stream.mkDelta s))]) in
  let stream := Stream.mkChatStream
                  [chunk (Some "[{"); chunk None; Stream.mkChunk None; chunk (Some "}]")]
                  (Some (Rejected "socket hang up")) in
  String.concat ""
    (Stream.written
       (Stream.main (Stream.mkProcess [] {["OPENAI_API_KEY" := "sk-test"]}) (λ _ _, Ok stream)).1)
  = "[{}]".
Proof.
  intros chunk stream.
  apply (stream_output_is_concatenation
           (Stream.mkProcess [] {["OPENAI_API_KEY" := "sk-test"]}) (λ _ _, Ok stream) stream);
    reflexivity.
Defined.

(** * Validated briefs of the pipeline *)

(** ** What a valid parse returns *)
Section ParseOutputs.
Import Zod.









(** The example brief of the system prompt, which has no [user_stories], is
    rejected by the schema of the pipeline. *)
Example brief_without_user_stories_rejected t :
  safeParse (projectBriefSchema t) (JObj example_brief)
  = Failure (mkZodError
      [mkIssue (invalid_type (ExpType TArray) TUndefined) [PKey "user_stories"]]).
Proof. reflexivity. Qed.

End ParseOutputs.

(** ** The insertion path on a validated brief *)
Section ValidatedInsertion.
Context {W SupabaseClient : Type}.
Variable briefs_insert_select_single :
  SupabaseClient → BriefRow → W → W * Outcome Exception Chat.SingleResponse.
Variable brief_user_stories_insert :
  SupabaseClient → list UserStoryRow → W → W * Outcome Exception (option Chat.PostgrestError).
Variable supabaseClient : SupabaseClient.


End ValidatedInsertion.

